(** * The scoring service of the ONNX deployment notebook

    The notebook [solution-onnx-AML.ipynb] writes one program of its own,
    [scoring_service.py] (cell 27): the two entry points [init] and [run]
    of the hosted web service.  Most of the rest is a sequence of calls
    into Keras, onnxmltools and the Azure ML SDK; what the notebook computes
    itself besides is the shuffle and the split of the data (cell 8), the
    test sample (cells 18 and 34) and the search for the web service before
    a deployment (cell 32).

    This development embeds [init] and [run] as state-passing functions
    over the process state of the service (the global [model] and the
    effects the two functions have on the outside), parametrised by the
    libraries they call, and embeds the network of cell 11 whose ONNX
    export the service loads.  The properties of [init] and [run] are
    proved for any libraries; those that rest on the network are proved for
    any weights; a reference deployment, with a decoder for the request
    grammar, runs both on concrete requests.  The statements of cells 8,
    18, 32 and 34 are embedded over lists of rows, with the library calls
    they make as parameters. *)

From Stdlib Require Import String Ascii List ZArith Bool Arith Lia DecimalString.
From Stdlib Require Import Reals Lra Permutation.
From Stdlib Require DecimalPos DecimalFacts.
Import ListNotations.
Local Open Scope string_scope.

(** ** Python: exceptions and results *)

Module Py.

(** An instance of a subclass of [Exception]: its class and what [str(e)]
    returns.  Both handlers of the service are [except Exception as e], so
    these are exactly the exceptions they catch. *)
Record exn : Type := mkExn { exn_class : string; exn_text : string }.

Definition str (e : exn) : string := exn_text e.

(** The outcome of evaluating an expression: a value, or a raised
    exception. *)
Inductive outcome (A : Type) : Type :=
| Ret (a : A)
| Raise (e : exn).
Arguments Ret {A} a.
Arguments Raise {A} e.

Definition NameError (name : string) : exn :=
  mkExn "NameError" ("name '" ++ name ++ "' is not defined").

Definition IndexError (text : string) : exn := mkExn "IndexError" text.

Definition ValueError (text : string) : exn := mkExn "ValueError" text.

(** Sequencing of two evaluations: the second runs on the value of the
    first, and an exception of the first is the exception of both. *)
Definition and_then {A B : Type} (o : outcome A) (k : A -> outcome B) : outcome B :=
  match o with
  | Ret a => k a
  | Raise e => Raise e
  end.

(** [map] over a list, left to right, stopping at the first exception. *)
Definition mapM {A B : Type} (f : A -> outcome B) : list A -> outcome (list B) :=
  fix go (l : list A) : outcome (list B) :=
    match l with
    | [] => Ret []
    | x :: rest =>
        and_then (f x) (fun y => and_then (go rest) (fun ys => Ret (y :: ys)))
    end.

(** Decimal text of an integer, as [%d] and [str] print it. *)
Definition decimal (z : Z) : string := NilZero.string_of_int (Z.to_int z).

(** [l[0]] on a Python list. *)
Definition list_getitem0 {A : Type} (l : list A) : outcome A :=
  match l with
  | x :: _ => Ret x
  | [] => Raise (IndexError "list index out of range")
  end.

(** [os.path.join(a, b)] of [posixpath], for two components. *)
Definition starts_with_slash (s : string) : bool :=
  match s with
  | String c _ => Ascii.eqb c "/"
  | EmptyString => false
  end.

Fixpoint ends_with_slash (s : string) : bool :=
  match s with
  | EmptyString => false
  | String c EmptyString => Ascii.eqb c "/"
  | String _ rest => ends_with_slash rest
  end.

Definition os_path_join (a b : string) : string :=
  if starts_with_slash b then b
  else if String.eqb a EmptyString || ends_with_slash a then a ++ b
  else a ++ "/" ++ b.

(** What [print(a, b, ...)] writes: the arguments separated by one space
    (the newline that ends the line is left out). *)
Definition print_line (args : list string) : string := String.concat " " args.

End Py.
Import Py.

(** ** numpy: arrays as a shape and a row-major buffer *)

Module Np.

Record ndarray (A : Type) : Type := mkArray { shape : list nat; data : list A }.
Arguments mkArray {A} shape data.
Arguments shape {A} n.
Arguments data {A} n.

(** Number of elements of an array of the given shape. *)
Definition size_of (sh : list nat) : nat := fold_right Nat.mul 1 sh.

Definition well_formed {A : Type} (a : ndarray A) : Prop :=
  length (data a) = size_of (shape a).

(** [a[0]]: the first slice along axis 0. *)
Definition getitem0 {A : Type} (a : ndarray A) : outcome (ndarray A) :=
  match shape a with
  | [] => Raise (IndexError "invalid index to scalar variable.")
  | d :: ds =>
      if Nat.eqb d 0
      then Raise (IndexError "index 0 is out of bounds for axis 0 with size 0")
      else Ret (mkArray ds (firstn (size_of ds) (data a)))
  end.

(** [a.item()]: the single element of an array of size one. *)
Definition item {A : Type} (a : ndarray A) : outcome A :=
  match data a with
  | [x] => Ret x
  | _ => Raise (ValueError "can only convert an array of size 1 to a Python scalar")
  end.

End Np.
Import Np.

(** ** The libraries the service calls *)

(** An input of an ONNX graph as [get_inputs()] lists it. *)
Record NodeArg : Type := mkNodeArg { name : string }.

(** The library calls of [scoring_service.py].  Registry and file system
    are not written by the service, so resolving and loading a model are
    functions of the name and of the path; a session is not changed by
    evaluating it, so its outputs are a function of the session and of
    what it is fed. *)
Class Runtime : Type := {
  float32 : Type;   (* a numpy float32 scalar *)
  pyobj : Type;     (* the object json.loads returns *)
  pyarr : Type;     (* the array np.array builds, of whatever dtype *)
  session : Type;   (* an onnxruntime.InferenceSession *)
  json_loads : string -> outcome pyobj;
  np_array : pyobj -> outcome pyarr;
  astype_float32 : pyarr -> outcome (ndarray float32);
  get_model_path : string -> outcome string;
  InferenceSession : string -> outcome session;
  get_inputs : session -> list NodeArg;
  session_run :
    session -> list (string * ndarray float32) -> outcome (list (ndarray float32))
}.

(** ** The service *)

Section ScoringService.
Context {RT : Runtime}.

(** What [run] returns: [result] (a Python float, the float32 it was read
    from) or [error] (a string). *)
Inductive pyval : Type :=
| PyFloat (x : float32)
| PyStr (s : string).

(** What the service does to the outside: lines written to standard output
    and evaluations of a loaded graph, in order. *)
Inductive event : Type :=
| Stdout (line : string)
| Inference (m : session) (feeds : list (string * ndarray float32)).

(** The process state: the module-level global [model] ([None] while the
    name is unbound) and the effects so far. *)
Record world : Type := mkWorld { model : option session; effects : list event }.

Definition fresh : world := mkWorld None [].

(** Statements: state in, outcome and state out. *)
Definition M (A : Type) : Type := world -> outcome A * world.

Definition ret {A : Type} (a : A) : M A := fun w => (Ret a, w).

Definition bind {A B : Type} (c : M A) (k : A -> M B) : M B :=
  fun w =>
    match c w with
    | (Ret a, w') => k a w'
    | (Raise e, w') => (Raise e, w')
    end.

Definition call {A : Type} (o : outcome A) : M A := fun w => (o, w).

Definition emit (ev : event) : M unit :=
  fun w => (Ret tt, mkWorld (model w) (effects w ++ [ev])).

Definition print (args : list string) : M unit := emit (Stdout (print_line args)).

(** Reading the global [model]. *)
Definition load_global_model : M session :=
  fun w =>
    match model w with
    | Some m => (Ret m, w)
    | None => (Raise (NameError "model"), w)
    end.

(** [model = ...] under [global model]. *)
Definition store_global_model (m : session) : M unit :=
  fun w => (Ret tt, mkWorld (Some m) (effects w)).

(** [m.run(None, feeds)]. *)
Definition InferenceSession_run
  (m : session) (feeds : list (string * ndarray float32)) : M (list (ndarray float32)) :=
  bind (emit (Inference m feeds)) (fun _ => call (session_run m feeds)).

(** [try: body  except Exception as e: handler(e)]. *)
Definition try_except {A : Type} (body : M A) (handler : exn -> M A) : M A :=
  fun w =>
    match body w with
    | (Ret a, w') => (Ret a, w')
    | (Raise e, w') => handler e w'
    end.

Notation "x <- c ;; k" := (bind c (fun x => k))
  (at level 61, c at next level, right associativity).
Notation "c ;;; k" := (bind c (fun _ => k))
  (at level 61, right associativity).

(** The suite of [init]'s [try]. *)
Definition init_body : M unit :=
  model_path <- call (get_model_path "component_compliance") ;;
  let model_file_path := os_path_join model_path "component_compliance.onnx" in
  print ["Loading model from: "; model_file_path] ;;;
  m <- call (InferenceSession model_file_path) ;;
  store_global_model m ;;;
  print ["Model loaded..."].

Definition init : M unit :=
  try_except init_body (fun e => print [str e]).

(** The suite of [run]'s [try].  In
    [model.run(None, {model.get_inputs()[0].name: input_data})[0]] the
    callee [model.run] is evaluated before its arguments. *)
Definition run_body (raw_data : string) : M float32 :=
  print ["Received input: "; raw_data] ;;;
  obj <- call (json_loads raw_data) ;;
  arr <- call (np_array obj) ;;
  input_data <- call (astype_float32 arr) ;;
  callee <- load_global_model ;;
  m <- load_global_model ;;
  input0 <- call (list_getitem0 (get_inputs m)) ;;
  outputs <- InferenceSession_run callee [(name input0, input_data)] ;;
  result <- call (list_getitem0 outputs) ;;
  row <- call (getitem0 result) ;;
  cell <- call (getitem0 row) ;;
  result <- call (item cell) ;;
  ret result.

Definition run (raw_data : string) : M pyval :=
  try_except
    (result <- run_body raw_data ;; ret (PyFloat result))
    (fun e => let error := str e in ret (PyStr error)).

(** Three expressions of the service on their own, outside the state they
    are evaluated in.  First,
    [np.array(json.loads(raw_data)).astype(np.float32)] of [run]. *)
Definition request_array (raw_data : string) : outcome (ndarray float32) :=
  and_then (json_loads raw_data)
    (fun obj => and_then (np_array obj) astype_float32).

(** Second, what [run] reads from the list the session returned:
    [outputs[0][0][0].item()]. *)
Definition first_score (outputs : list (ndarray float32)) : outcome float32 :=
  and_then (list_getitem0 outputs)
    (fun result => and_then (getitem0 result)
      (fun row => and_then (getitem0 row) item)).

(** Third, the model [init] resolves and loads. *)
Definition registered_model : outcome session :=
  and_then (get_model_path "component_compliance")
    (fun model_path =>
       InferenceSession (os_path_join model_path "component_compliance.onnx")).

(** The line [run] prints first. *)
Definition received (raw_data : string) : event :=
  Stdout (print_line ["Received input: "; raw_data]).

(** What one call of [run] adds to the effects when the global [model] is
    [bound]: the line it prints first, and the evaluation of the graph if
    the request converts, a model is bound and the graph has an input. *)
Definition run_effects (bound : option session) (raw_data : string) : list event :=
  received raw_data ::
  match request_array raw_data, bound with
  | Ret input_data, Some m =>
      match get_inputs m with
      | input0 :: _ => [Inference m [(name input0, input_data)]]
      | [] => []
      end
  | _, _ => []
  end.

(** A session that answers with one output row per input row: the leading
    dimension of its first output is that of the array it was fed. *)
Definition one_row_per_sample (m : session) : Prop :=
  forall fed input result others,
    session_run m [(fed, input)] = Ret (result :: others) ->
    hd_error (shape result) = hd_error (shape input).

(** The host's calls into the service, and the state after a sequence of
    them. *)
Inductive request : Type :=
| Init
| Run (raw_data : string).

Definition serve (w : world) (r : request) : world :=
  match r with
  | Init => snd (init w)
  | Run raw_data => snd (run raw_data w)
  end.

Definition serve_all (w : world) (rs : list request) : world := fold_left serve rs w.

(** The two states of the endpoint. *)
Inductive status : Type := Uninitialized | Ready.

Definition status_of (w : world) : status :=
  match model w with
  | Some _ => Ready
  | None => Uninitialized
  end.

End ScoringService.

(** ** The network of cell 11

    [Sequential([Embedding(max_words, embedding_dim, input_length=maxlen),
    Flatten(), Dense(32, relu), Dense(1, sigmoid)])].  The trained weights
    come from [model.h5], which is downloaded and not part of the
    repository: they are a parameter.  Scalars are read as the real numbers
    they denote; rounding, infinities and NaN of float32 arithmetic are not
    modelled. *)

Module Keras.
Local Open Scope R_scope.

Definition embedding_dim : nat := 100.
Definition maxlen : nat := 100.
Definition max_words : Z := 10000.

(** The tensors of [model.h5], each indexed by row and column. *)
Record weights : Type := mkWeights {
  embeddings : Z -> nat -> R;    (* max_words x embedding_dim *)
  kernel1 : nat -> nat -> R;     (* (maxlen * embedding_dim) x 32 *)
  bias1 : nat -> R;
  kernel2 : nat -> nat -> R;     (* 32 x 1 *)
  bias2 : nat -> R
}.

Definition relu (x : R) : R := Rmax x 0.

(** Over the reals the value lies strictly between 0 and 1.  The float32
    sigmoid of the served graph rounds, and returns exactly 0.0 or 1.0 far
    from zero: of the bounds only the closed ones carry over to it. *)
Definition sigmoid (x : R) : R := 1 / (1 + exp (- x)).

(** [Embedding]: the table's row of one token. *)
Definition Embedding (table : Z -> nat -> R) (token : Z) : list R :=
  map (table token) (seq 0 embedding_dim).

Definition Flatten (rows : list (list R)) : list R := concat rows.

(** A scalar that is a token of the vocabulary: at least 0 and below
    [max_words]. *)
Definition in_vocabulary (x : R) : Prop := 0 <= x < IZR max_words.

(** Inner product of [x] with a kernel column, from input position [i]. *)
Fixpoint dot (i : nat) (x : list R) (column : nat -> R) : R :=
  match x with
  | [] => 0
  | xi :: rest => xi * column i + dot (S i) rest column
  end.

(** [Dense(units, activation)]: [activation(x . kernel + bias)]. *)
Definition Dense (units : nat) (activation : R -> R)
  (kernel : nat -> nat -> R) (bias : nat -> R) (x : list R) : list R :=
  map (fun j => activation (dot 0 x (fun i => kernel i j) + bias j)) (seq 0 units).

(** The forward pass on one sample, given as its token indices. *)
Definition predict (w : weights) (tokens : list Z) : list R :=
  Dense 1 sigmoid (kernel2 w) (bias2 w)
    (Dense 32 relu (kernel1 w) (bias1 w)
      (Flatten (map (Embedding (embeddings w)) tokens))).

(** The same network with the kernel and the bias of its output unit
    negated: what training on the opposite labels would fit. *)
Definition opposite (w : weights) : weights :=
  mkWeights (embeddings w) (kernel1 w) (bias1 w)
            (fun i j => - kernel2 w i j) (fun j => - bias2 w j).

End Keras.

(** ** The exported graph under onnxruntime

    [onnxmltools.convert_keras] (cell 13) exports the network with its
    float input cast to integers and the embedding as a [Gather] over the
    table.  onnxruntime checks the fed array against the declared input
    [(N, maxlen)] and checks every index [Gather] receives.  Of the text
    of its errors the status message is kept. *)

Module Onnx.
Import Keras.

Definition InvalidArgument (text : string) : exn := mkExn "InvalidArgument" text.

(** The name Keras gives the input of the first layer. *)
Definition input_name : string := "embedding_1_input".

(** [Cast] of a float to an integer: truncation toward zero. *)
Definition trunc (x : R) : Z :=
  if Rle_dec 0 x then Int_part x else (- Int_part (- x))%Z.

Definition out_of_data_bounds (i : Z) : exn :=
  InvalidArgument
    ("indices element out of data bounds, idx=" ++ decimal i
     ++ " must be within the inclusive range [" ++ decimal (- max_words)
     ++ "," ++ decimal (max_words - 1) ++ "]").

(** [Gather]'s index check, as onnxruntime's kernel makes it: an index in
    [[-max_words, max_words)] selects a row, a negative one counting from
    the end; any other is refused. *)
Definition gather_index (i : Z) : outcome Z :=
  if (i <? - max_words)%Z || (max_words <=? i)%Z
  then Raise (out_of_data_bounds i)
  else Ret (i mod max_words)%Z.

(** The [n] rows of a row-major buffer. *)
Fixpoint rows {A : Type} (n width : nat) (buffer : list A) : list (list A) :=
  match n with
  | O => []
  | S n' => firstn width buffer :: rows n' width (skipn width buffer)
  end.

Definition score_row (w : weights) (row : list R) : outcome (list R) :=
  and_then (mapM (fun x => gather_index (trunc x)) row)
    (fun tokens => Ret (predict w tokens)).

(** Evaluation of the graph on one input array: one output row per
    sample. *)
Definition run_graph (w : weights) (input : ndarray R) : outcome (ndarray R) :=
  match shape input with
  | [n; width] =>
      if Nat.eqb width maxlen
      then and_then (mapM (score_row w) (rows n width (data input)))
             (fun ys => Ret (mkArray [n; 1%nat] (concat ys)))
      else Raise (InvalidArgument
        ("Got invalid dimensions for input: " ++ input_name
         ++ " for the following indices index: 1 Got: "
         ++ decimal (Z.of_nat width) ++ " Expected: "
         ++ decimal (Z.of_nat maxlen)))
  | sh => Raise (InvalidArgument
        ("Invalid rank for input: " ++ input_name ++ " Got: "
         ++ decimal (Z.of_nat (length sh)) ++ " Expected: 2"))
  end.

(** [session.run(None, feeds)]: every output of the graph (it has one). *)
Definition run_session (w : weights) (feeds : list (string * ndarray R))
  : outcome (list (ndarray R)) :=
  match feeds with
  | [(fed, input)] =>
      if String.eqb fed input_name
      then and_then (run_graph w input) (fun y => Ret [y])
      else Raise (InvalidArgument ("Invalid Feed Input Name:" ++ fed))
  | _ => Raise (InvalidArgument "Invalid Feed Input Name")
  end.

End Onnx.

(** ** The deployed service

    The service whose registered model is the export of the network: its
    sessions are the loaded weights and evaluate as [Onnx.run_session].
    The JSON decoder, numpy's conversions, the model registry and the
    loader stay parameters. *)

Section Deployment.
Variables (object array : Type).
Variable loads : string -> outcome object.
Variable to_array : object -> outcome array.
Variable to_float32 : array -> outcome (ndarray R).
Variable registry : string -> outcome string.
Variable loader : string -> outcome Keras.weights.

Definition deployed : Runtime := {|
  float32 := R;
  pyobj := object;
  pyarr := array;
  session := Keras.weights;
  json_loads := loads;
  np_array := to_array;
  astype_float32 := to_float32;
  get_model_path := registry;
  InferenceSession := loader;
  get_inputs := fun _ => [mkNodeArg Onnx.input_name];
  session_run := Onnx.run_session
|}.

End Deployment.

(** ** A decoder for the request grammar

    The scoring contract sends a JSON array of arrays of numbers.  [loads]
    follows CPython's [json.decoder] ([JSONDecoder.decode], [scan_once],
    [JSONArray], [NUMBER_RE]) on documents made of arrays, numbers and
    white space, positions and messages of its errors included.  Strings,
    objects and the literal names are outside this fragment: CPython decodes
    them, this decoder stops at their first character as at any character
    that starts no value. *)

Module Json.

(** The value of a number literal: an [int], or a [float] given by its
    decimal mantissa and exponent. *)
Inductive number : Type :=
| Int (z : Z)
| Float (mantissa exponent : Z).

#[warnings="-register-all"]
Inductive value : Type :=
| Number (n : number)
| Array (items : list value).

(** Line and column (both from 1) of position [pos] of the document. *)
Fixpoint line_column (doc : list ascii) (pos : nat) (line col : nat) : nat * nat :=
  match pos, doc with
  | S pos', c :: rest =>
      if Ascii.eqb c "010" then line_column rest pos' (S line) 1
      else line_column rest pos' line (S col)
  | _, _ => (line, col)
  end.

Definition JSONDecodeError (msg : string) (doc : list ascii) (pos : nat) : exn :=
  let (line, col) := line_column doc pos 1 1 in
  mkExn "JSONDecodeError"
    (msg ++ ": line " ++ decimal (Z.of_nat line) ++ " column "
     ++ decimal (Z.of_nat col) ++ " (char " ++ decimal (Z.of_nat pos) ++ ")").

Definition RecursionError : exn :=
  mkExn "RecursionError" "maximum recursion depth exceeded while decoding a JSON array".

Definition is_whitespace (c : ascii) : bool :=
  Ascii.eqb c " " || Ascii.eqb c "009" || Ascii.eqb c "010" || Ascii.eqb c "013".

Fixpoint skip_whitespace (s : list ascii) (pos : nat) : list ascii * nat :=
  match s with
  | c :: rest => if is_whitespace c then skip_whitespace rest (S pos) else (s, pos)
  | [] => (s, pos)
  end.

Definition digit_of (c : ascii) : option Z :=
  let n := nat_of_ascii c in
  if (48 <=? n)%nat && (n <=? 57)%nat then Some (Z.of_nat (n - 48)) else None.

(** The longest run of digits at the head, and what follows it. *)
Fixpoint digits (s : list ascii) : list Z * list ascii :=
  match s with
  | c :: rest =>
      match digit_of c with
      | Some d => let (ds, rest') := digits rest in (d :: ds, rest')
      | None => ([], s)
      end
  | [] => ([], s)
  end.

Definition digits_value (ds : list Z) : Z :=
  fold_left (fun acc d => 10 * acc + d)%Z ds 0%Z.

(** The first group of [NUMBER_RE]: an optional minus sign, then a single
    zero or a digit from 1 to 9 followed by any digits. *)
Definition match_integer (s : list ascii) : option (bool * list Z * list ascii) :=
  let (negative, s1) :=
    match s with
    | "-"%char :: rest => (true, rest)
    | _ => (false, s)
    end in
  match s1 with
  | c :: rest =>
      match digit_of c with
      | Some 0%Z => Some (negative, [0%Z], rest)
      | Some d => let (ds, rest') := digits rest in Some (negative, d :: ds, rest')
      | None => None
      end
  | [] => None
  end.

(** The second group: a dot and at least one digit, if present. *)
Definition match_frac (s : list ascii) : option (list Z) * list ascii :=
  match s with
  | "."%char :: rest =>
      match digits rest with
      | ([], _) => (None, s)
      | (ds, rest') => (Some ds, rest')
      end
  | _ => (None, s)
  end.

(** The third group: [e] or [E], an optional sign and at least one digit,
    if present. *)
Definition match_exp (s : list ascii) : option Z * list ascii :=
  match s with
  | c :: rest =>
      if Ascii.eqb c "e" || Ascii.eqb c "E" then
        let (negative, rest1) :=
          match rest with
          | "-"%char :: r => (true, r)
          | "+"%char :: r => (false, r)
          | _ => (false, rest)
          end in
        match digits rest1 with
        | ([], _) => (None, s)
        | (ds, rest') =>
            (Some (if negative then - digits_value ds else digits_value ds)%Z, rest')
        end
      else (None, s)
  | [] => (None, s)
  end.

(** [NUMBER_RE.match] and the conversion of what it matched: [int] of the
    integer part when there is neither fraction nor exponent, [float] of
    the whole literal otherwise. *)
Definition match_number (s : list ascii) : option (number * list ascii) :=
  match match_integer s with
  | None => None
  | Some (negative, integer, s1) =>
      let (frac, s2) := match_frac s1 in
      let (exp, s3) := match_exp s2 in
      let signed (z : Z) := if negative then (- z)%Z else z in
      match frac, exp with
      | None, None => Some (Int (signed (digits_value integer)), s3)
      | _, _ =>
          let fs := match frac with Some ds => ds | None => [] end in
          let e := match exp with Some e => e | None => 0%Z end in
          Some (Float (signed (digits_value (integer ++ fs)))
                      (e - Z.of_nat (length fs)), s3)
      end
  end.

(** What a scan at a position gives: a value and where it ends, no value
    ([StopIteration], with the position), or a decoding error. *)
Inductive scanned : Type :=
| Value (v : value) (rest : list ascii) (pos : nat)
| StopIteration (pos : nat)
| Error (e : exn).

Section Scanner.
(** The whole document, for the positions of errors. *)
Variable doc : list ascii.

(** [scan_once] and the loop of [JSONArray] over the items that follow an
    opening bracket.  [fuel] bounds the depth of the recursion. *)
Fixpoint scan_once (fuel : nat) (s : list ascii) (pos : nat) {struct fuel} : scanned :=
  match fuel with
  | O => Error RecursionError
  | S fuel' =>
      match s with
      | [] => StopIteration pos
      | "["%char :: rest =>
          let (s1, p1) := skip_whitespace rest (S pos) in
          match s1 with
          | "]"%char :: rest1 => Value (Array []) rest1 (S p1)
          | _ => array_items fuel' [] s1 p1
          end
      | _ =>
          match match_number s with
          | Some (n, rest) => Value (Number n) rest (pos + (length s - length rest))
          | None => StopIteration pos
          end
      end
  end
with array_items (fuel : nat) (values : list value) (s : list ascii) (pos : nat)
  {struct fuel} : scanned :=
  match fuel with
  | O => Error RecursionError
  | S fuel' =>
      match scan_once fuel' s pos with
      | StopIteration p => Error (JSONDecodeError "Expecting value" doc p)
      | Error e => Error e
      | Value v rest p =>
          let (s1, p1) := skip_whitespace rest p in
          match s1 with
          | "]"%char :: rest1 => Value (Array (rev (v :: values))) rest1 (S p1)
          | ","%char :: rest1 =>
              let (s2, p2) := skip_whitespace rest1 (S p1) in
              array_items fuel' (v :: values) s2 p2
          | _ => Error (JSONDecodeError "Expecting ',' delimiter" doc p1)
          end
      end
  end.

End Scanner.

(** [json.loads(s)]. *)
Definition loads (s : string) : outcome value :=
  let doc := list_ascii_of_string s in
  let (s0, p0) := skip_whitespace doc 0 in
  match scan_once doc (2 * length doc + 2) s0 p0 with
  | StopIteration p => Raise (JSONDecodeError "Expecting value" doc p)
  | Error e => Raise e
  | Value v rest p =>
      match skip_whitespace rest p with
      | ([], _) => Ret v
      | (_, p1) => Raise (JSONDecodeError "Extra data" doc p1)
      end
  end.

(** [json.dumps(rows)] of a list of lists of floats with integral values,
    as cell 34 builds the test request from one padded sample. *)
Definition dumps_floats (row : list Z) : string :=
  "[" ++ String.concat ", " (map (fun t => decimal t ++ ".0") row) ++ "]".

Definition dumps (rows : list (list Z)) : string :=
  "[" ++ String.concat ", " (map dumps_floats rows) ++ "]".

End Json.

(** ** numpy's conversions on decoded requests *)

Module Numpy.
Import Json.

Definition same_shape (a b : ndarray number) : bool :=
  if list_eq_dec Nat.eq_dec (shape a) (shape b) then true else false.

(** An array of the given sub-arrays along a new first axis; sub-arrays of
    different shapes make no array. *)
Definition stack (subs : list (ndarray number)) : outcome (ndarray number) :=
  match subs with
  | [] => Ret (mkArray [0%nat] [])
  | first :: _ =>
      if forallb (same_shape first) subs
      then Ret (mkArray (length subs :: shape first) (concat (map data subs)))
      else Raise (ValueError "setting an array element with a sequence.")
  end.

(** [np.array(obj)]. *)
Fixpoint array (obj : value) : outcome (ndarray number) :=
  match obj with
  | Number n => Ret (mkArray [] [n])
  | Array items => and_then (mapM array items) stack
  end.

(** The real number a decoded number denotes. *)
Definition to_real (n : number) : R :=
  match n with
  | Int z => IZR z
  | Float m e =>
      if (0 <=? e)%Z then IZR (m * 10 ^ e) else (IZR m / IZR (10 ^ (- e)))%R
  end.

(** [a.astype(np.float32)], without the rounding: every number is kept as
    the real it denotes.  Integers up to 2^24, the token indices among
    them, are float32 values and are converted as the program converts
    them; a number such as 9999.9999 is none, and the program rounds it (to
    10000.0) where this conversion keeps it. *)
Definition astype_float32 (a : ndarray number) : outcome (ndarray R) :=
  Ret (mkArray (shape a) (map to_real (data a))).

End Numpy.

(** ** A deployment to run

    A registry that knows the registered model, a file system given by the
    graphs it holds, and the decoder and conversions above. *)

Module Reference.

Definition model_dir : string := "azureml-models/component_compliance/1".

Definition registry (model_name : string) : outcome string :=
  if String.eqb model_name "component_compliance" then Ret model_dir
  else Raise (mkExn "ModelNotFoundException"
    ("Model " ++ model_name ++ " not found in cache at azureml-models"
     ++ " or in current working directory"))%string.

Definition loader (files : list (string * Keras.weights)) (path : string)
  : outcome Keras.weights :=
  match find (fun f => String.eqb (fst f) path) files with
  | Some f => Ret (snd f)
  | None => Raise (mkExn "NoSuchFile"
      ("Load model from " ++ path ++ " failed. File doesn't exist"))%string
  end.

(** A graph with every weight zero. *)
Definition untrained : Keras.weights :=
  Keras.mkWeights (fun _ _ => 0%R) (fun _ _ => 0%R) (fun _ => 0%R)
                  (fun _ _ => 0%R) (fun _ => 0%R).

Definition service (files : list (string * Keras.weights)) : Runtime :=
  deployed Json.value (ndarray Json.number)
    Json.loads Numpy.array Numpy.astype_float32 registry (loader files).

(** The registered graph in place, and the same deployment without it. *)
Definition registered : list (string * Keras.weights) :=
  [(os_path_join model_dir "component_compliance.onnx", untrained)].

Definition healthy : Runtime := service registered.
Definition broken : Runtime := service [].

(** The state of each after the host has called [init]. *)
Definition ready : @world healthy := snd (@init healthy (@fresh healthy)).
Definition failed : @world broken := snd (@init broken (@fresh broken)).

(** Requests: one padded sample as cell 34 sends it, a vector of length
    50, two samples whose first value is no token of the vocabulary, two
    samples at once, two samples of which the second starts with no token
    of the vocabulary, and values that are no token indices at all. *)
Definition sample : string := Json.dumps [repeat 7%Z 100].
Definition short_vector : string := Json.dumps [repeat 7%Z 50].
Definition beyond_vocabulary : string := Json.dumps [20000%Z :: repeat 0%Z 99].
Definition at_vocabulary_size : string := Json.dumps [10000%Z :: repeat 0%Z 99].
Definition two_samples : string := Json.dumps [repeat 7%Z 100; repeat 8%Z 100].
Definition second_row_beyond : string :=
  Json.dumps [repeat 7%Z 100; 20000%Z :: repeat 0%Z 99].
Definition no_tokens : string := "[[-1, 0.5, 20000]]".

(** The arrays these requests convert to. *)
Definition tokens (row : list Z) : list R :=
  map (fun t => Numpy.to_real (Json.Float (10 * t) (-1))) row.

Definition sample_input : ndarray R := mkArray [1; 100] (tokens (repeat 7%Z 100)).
Definition short_input : ndarray R := mkArray [1; 50] (tokens (repeat 7%Z 50)).
Definition beyond_input : ndarray R :=
  mkArray [1; 100] (tokens (20000%Z :: repeat 0%Z 99)).
Definition at_size_input : ndarray R :=
  mkArray [1; 100] (tokens (10000%Z :: repeat 0%Z 99)).
Definition two_samples_input : ndarray R :=
  mkArray [2; 100] (tokens (repeat 7%Z 100 ++ repeat 8%Z 100)).
Definition second_row_beyond_input : ndarray R :=
  mkArray [2; 100] (tokens (repeat 7%Z 100 ++ 20000%Z :: repeat 0%Z 99)).
Definition no_tokens_input : ndarray R :=
  mkArray [1; 3]
    (map Numpy.to_real [Json.Int (-1); Json.Float 5 (-1); Json.Int 20000]).

(** What loading raises where the graph is missing. *)
Definition no_such_file : exn :=
  mkExn "NoSuchFile"
    ("Load model from " ++ os_path_join model_dir "component_compliance.onnx"
     ++ " failed. File doesn't exist").

End Reference.

(** ** numpy: indexing along the first axis

    The data of cell 8 is a two-dimensional array and its labels a
    one-dimensional one; the notebook only ever indexes and slices them
    along the first axis.  Along that axis an array is the list of its
    rows. *)

Module Axis0.

(** Where a slice bound [i] falls on an axis of length [n]: a negative
    bound counts from the end, and every bound is clipped to the axis. *)
Definition clip (n i : Z) : Z :=
  if (i <? 0)%Z then Z.max (i + n) 0 else Z.min i n.

(** [a[start:stop]], either bound possibly left out. *)
Definition slice {A : Type} (start stop : option Z) (a : list A) : list A :=
  let n := Z.of_nat (length a) in
  let lo := match start with Some i => clip n i | None => 0%Z end in
  let hi := match stop with Some j => clip n j | None => n end in
  firstn (Z.to_nat (hi - lo)) (skipn (Z.to_nat lo) a).

Definition out_of_bounds (i n : Z) : exn :=
  IndexError ("index " ++ decimal i ++ " is out of bounds for axis 0 with size "
              ++ decimal n).

(** [a[i]]: a negative index counts from the end; an index outside the
    axis is an [IndexError]. *)
Definition getitem {A : Type} (i : Z) (a : list A) : outcome A :=
  let n := Z.of_nat (length a) in
  if (i <? - n)%Z || (n <=? i)%Z then Raise (out_of_bounds i n)
  else
    match nth_error a (Z.to_nat (if (i <? 0)%Z then i + n else i)) with
    | Some x => Ret x
    | None => Raise (out_of_bounds i n)
    end.

(** [a[indices]] with an array of indices: the rows at these indices, in
    their order. *)
Definition take {A : Type} (indices : list Z) (a : list A) : outcome (list A) :=
  mapM (fun i => getitem i a) indices.

(** [np.arange(n)]. *)
Definition arange (n : nat) : list Z := map Z.of_nat (seq 0 n).

(** [np.reshape(a, (1, 100))] of a one-dimensional array. *)
Definition reshape_1_100 {A : Type} (a : list A) : outcome (ndarray A) :=
  if Nat.eqb (length a) 100 then Ret (mkArray [1; 100] a)
  else Raise (ValueError
    ("cannot reshape array of size " ++ decimal (Z.of_nat (length a))
     ++ " into shape (1,100)")).

End Axis0.

(** ** The notebook's own statements

    Cell 8 shuffles the padded data with its labels and cuts both into
    training, validation and test sets; cells 18 and 34 take one test
    sample; cell 32 looks for the web service before it deploys one. *)

Module Notebook.
Import Axis0.

Definition training_samples : Z := 90000.
Definition validation_samples : Z := 5000.

Section Cell8.
Context {A B : Type}.

(** [np.random.shuffle(indices)]: the order the call leaves the indices
    in. *)
Variable shuffle : list Z -> list Z.

(** [indices = np.arange(data.shape[0]); np.random.shuffle(indices);
    data = data[indices]; labels = labels[indices]]. *)
Definition shuffled (data : list A) (labels : list B) : outcome (list A * list B) :=
  let indices := arange (length data) in
  let indices := shuffle indices in
  and_then (take indices data)
    (fun data => and_then (take indices labels) (fun labels => Ret (data, labels))).

(** The six arrays the cell ends with. *)
Record splits : Type := mkSplits {
  x_train : list A; y_train : list B;
  x_val : list A;   y_val : list B;
  x_test : list A;  y_test : list B
}.

Definition split (data : list A) (labels : list B) : splits := {|
  x_train := slice None (Some training_samples) data;
  y_train := slice None (Some training_samples) labels;
  x_val := slice (Some training_samples)
                 (Some (training_samples + validation_samples)%Z) data;
  y_val := slice (Some training_samples)
                 (Some (training_samples + validation_samples)%Z) labels;
  x_test := slice (Some (training_samples + validation_samples)%Z) None data;
  y_test := slice (Some (training_samples + validation_samples)%Z) None labels
|}.

Definition shuffle_and_split (data : list A) (labels : list B) : outcome splits :=
  and_then (shuffled data labels) (fun dl => Ret (split (fst dl) (snd dl))).

End Cell8.

Section TestSample.
Context {I F : Type}.

(** The cast of one element by [astype(np.float32)]. *)
Variable to_float32 : I -> F.

(** Cell 18: [np.reshape(x_test[1502].astype(np.float32), (1,100))]. *)
Definition x_test_float (x_test : list (list I)) : outcome (ndarray F) :=
  and_then (getitem 1502 x_test) (fun row => reshape_1_100 (map to_float32 row)).

(** Cell 34: [np.reshape(x_test.astype(np.float32)[1502], (1,100))]. *)
Definition test_sample (x_test : list (list I)) : outcome (ndarray F) :=
  and_then (getitem 1502 (map (map to_float32) x_test)) reshape_1_100.

End TestSample.

Section Cell32.
(** A web service of the workspace, with its [name] and how it prints. *)
Variable Webservice : Type.
Variable service_name : Webservice -> string.
Variable repr : Webservice -> string.

(** [Webservice.deploy_from_image(..., name=name, ...)] and
    [wait_for_deployment] on what it returned. *)
Variable deploy_from_image : string -> outcome Webservice.
Variable wait_for_deployment : Webservice -> outcome unit.

Definition webservice_name : string := "complianceservice-srv".

(** What the cell does to the outside. *)
Inductive action : Type :=
| Printed (line : string)
| DeployStarted (name : string)
| WaitedFor (service : Webservice).

(** The loop over [Webservice.list(ws)]: it has no [break]. *)
Definition find_existing (listed : list Webservice) : option Webservice * list action :=
  fold_left
    (fun state service =>
       if String.eqb (service_name service) webservice_name
       then (Some service, (snd state ++ [Printed "Found existing webservice!"])%list)
       else state)
    listed (None, []).

(** The whole cell: the service it ends with, or what it raised, and its
    actions. *)
Definition find_or_deploy (listed : list Webservice)
  : outcome Webservice * list action :=
  let (webservice, done) := find_existing listed in
  match webservice with
  | Some service =>
      (Ret service,
       (done ++ [Printed (print_line [service_name service; repr service])])%list)
  | None =>
      let done :=
        (done ++ [Printed "Starting new deployment..."; DeployStarted webservice_name])%list in
      match deploy_from_image webservice_name with
      | Raise e => (Raise e, done)
      | Ret service =>
          match wait_for_deployment service with
          | Raise e => (Raise e, (done ++ [WaitedFor service])%list)
          | Ret _ =>
              (Ret service,
               (done ++ [WaitedFor service;
                         Printed (print_line [service_name service; repr service])])%list)
          end
      end
  end.

End Cell32.

End Notebook.

(** * Properties of the service, for any libraries *)

Section ServiceProperties.
Context {RT : Runtime}.

(** [run], statement by statement: the request is printed; a request that
    does not convert, an unbound [model] and a graph without inputs end in
    the handler before any evaluation; otherwise the session is evaluated
    once, on the converted array, and its outcome decides the result. *)
Lemma run_eq (raw_data : string) (w : world) :
  run raw_data w =
  let w1 := mkWorld (model w) (effects w ++ [received raw_data]) in
  match request_array raw_data with
  | Raise e => (Ret (PyStr (str e)), w1)
  | Ret input_data =>
      match model w with
      | None => (Ret (PyStr (str (NameError "model"))), w1)
      | Some m =>
          match get_inputs m with
          | [] => (Ret (PyStr (str (IndexError "list index out of range"))), w1)
          | input0 :: _ =>
              let feeds := [(name input0, input_data)] in
              let w2 := mkWorld (model w) (effects w1 ++ [Inference m feeds]) in
              match and_then (session_run m feeds) first_score with
              | Ret x => (Ret (PyFloat x), w2)
              | Raise e => (Ret (PyStr (str e)), w2)
              end
          end
      end
  end.
Proof.
  unfold run, run_body, InferenceSession_run, print, request_array, first_score,
    received.
  unfold try_except, bind, call, emit, load_global_model, ret.
  cbn [model effects and_then].
  destruct (json_loads raw_data) as [obj|e]; cbn [and_then]; [|reflexivity].
  destruct (np_array obj) as [arr|e]; cbn [and_then]; [|reflexivity].
  destruct (astype_float32 arr) as [input_data|e]; [|reflexivity].
  destruct (model w) as [m|]; [|reflexivity].
  cbn [model effects].
  destruct (get_inputs m) as [|input0 rest]; cbn [list_getitem0]; [reflexivity|].
  cbn [model effects].
  destruct (session_run m [(name input0, input_data)]) as [outputs|e];
    cbn [and_then]; [|reflexivity].
  destruct (list_getitem0 outputs) as [result|e]; cbn [and_then]; [|reflexivity].
  destruct (getitem0 result) as [row|e]; cbn [and_then]; [|reflexivity].
  destruct (getitem0 row) as [cell|e]; cbn [and_then]; [|reflexivity].
  destruct (item cell) as [x|e]; reflexivity.
Qed.

(** What [run] returns is decided by how its [try] suite ends. *)
Lemma run_of_body (raw_data : string) (w : world) :
  fst (run raw_data w) =
  match fst (run_body raw_data w) with
  | Ret x => Ret (PyFloat x)
  | Raise e => Ret (PyStr (str e))
  end.
Proof.
  unfold run, try_except, bind, ret.
  destruct (run_body raw_data w) as [[x|e] w']; reflexivity.
Qed.

(** [init], statement by statement: a failure to resolve or to load the
    model is printed and leaves [model] as it was; otherwise the session is
    stored. *)
Lemma init_eq (w : world) :
  init w =
  match get_model_path "component_compliance" with
  | Raise e => (Ret tt, mkWorld (model w) (effects w ++ [Stdout (print_line [str e])]))
  | Ret model_path =>
      let model_file_path := os_path_join model_path "component_compliance.onnx" in
      let loading := Stdout (print_line ["Loading model from: "; model_file_path]) in
      match InferenceSession model_file_path with
      | Raise e =>
          (Ret tt, mkWorld (model w)
                     ((effects w ++ [loading]) ++ [Stdout (print_line [str e])]))
      | Ret m =>
          (Ret tt, mkWorld (Some m)
                     ((effects w ++ [loading]) ++ [Stdout (print_line ["Model loaded..."])]))
      end
  end.
Proof.
  unfold init, init_body, print.
  unfold try_except, bind, call, emit, store_global_model.
  destruct (get_model_path "component_compliance") as [model_path|e]; [|reflexivity].
  cbn [model effects].
  destruct (InferenceSession _) as [m|e]; reflexivity.
Qed.

Lemma init_returns (w : world) : fst (init w) = Ret tt.
Proof.
  rewrite init_eq. cbv zeta.
  destruct (get_model_path _) as [model_path|e]; [|reflexivity].
  destruct (InferenceSession (os_path_join model_path _)); reflexivity.
Qed.

Lemma init_model (w : world) :
  model (snd (init w)) =
  match registered_model with
  | Ret m => Some m
  | Raise _ => model w
  end.
Proof.
  rewrite init_eq. unfold registered_model. cbv zeta.
  destruct (get_model_path _) as [model_path|e]; cbn [and_then]; [|reflexivity].
  destruct (InferenceSession (os_path_join model_path _)); reflexivity.
Qed.

Lemma run_keeps_model (raw_data : string) (w : world) :
  model (snd (run raw_data w)) = model w.
Proof.
  rewrite run_eq. cbv zeta.
  destruct (request_array raw_data); [|reflexivity].
  destruct (model w) as [m|] eqn:Hm; [|reflexivity].
  destruct (get_inputs m); [reflexivity|].
  destruct (and_then _ _); reflexivity.
Qed.

Lemma run_result_of_model (raw_data : string) (w w' : world) :
  model w' = model w -> fst (run raw_data w') = fst (run raw_data w).
Proof.
  intros Hm. rewrite !run_eq. cbv zeta. rewrite Hm.
  destruct (request_array raw_data); [|reflexivity].
  destruct (model w) as [m|]; [|reflexivity].
  destruct (get_inputs m); [reflexivity|].
  destruct (and_then _ _); reflexivity.
Qed.

(** Requests alone never bind [model]. *)
Lemma runs_keep_model (raws : list string) (w : world) :
  model (serve_all w (map Run raws)) = model w.
Proof.
  revert w. induction raws as [|raw raws IH]; intros w; [reflexivity|].
  cbn [map serve_all fold_left]. fold (serve_all (serve w (Run raw)) (map Run raws)).
  rewrite IH. apply run_keeps_model.
Qed.

(** No call unbinds [model]. *)
Lemma bound_stays_bound (rs : list request) (w : world) :
  model w <> None -> model (serve_all w rs) <> None.
Proof.
  revert w. induction rs as [|r rs IH]; intros w Hw; [exact Hw|].
  cbn [serve_all fold_left]. apply IH.
  destruct r as [|raw]; cbn [serve].
  - rewrite init_model. destruct registered_model; [discriminate|exact Hw].
  - rewrite run_keeps_model. exact Hw.
Qed.

(** From a fresh process, [model] is unbound or bound to the registered
    model, whatever the host has called. *)
Lemma model_of_reachable (rs : list request) :
  model (serve_all fresh rs) = None \/
  (exists m, registered_model = Ret m /\ model (serve_all fresh rs) = Some m).
Proof.
  induction rs as [|r rs IH] using rev_ind; [left; reflexivity|].
  unfold serve_all in *. rewrite fold_left_app. cbn [fold_left].
  destruct r as [|raw]; cbn [serve].
  - rewrite init_model.
    destruct registered_model as [m|e] eqn:Hm; [right; exists m; auto|].
    destruct IH as [IH|[m [Hm' _]]]; [left; exact IH|discriminate].
  - rewrite run_keeps_model. exact IH.
Qed.

(** C1.  [run] never raises.  Whatever the request and the state, the call
    returns: the float the [try] suite computed, or, when the suite raised
    an exception, the text [str] gives of it.  In particular a request that
    fails to decode or to convert (malformed JSON, non-numeric content, a
    ragged shape) returns the text of that error, and so does an error the
    session raises while it evaluates the graph (a vector of the wrong
    length). *)
Theorem run_never_raises (raw_data : string) (w : world) :
  ((exists x, fst (run_body raw_data w) = Ret x /\
              fst (run raw_data w) = Ret (PyFloat x)) \/
   (exists e, fst (run_body raw_data w) = Raise e /\
              fst (run raw_data w) = Ret (PyStr (str e)))) /\
  (forall e, request_array raw_data = Raise e ->
             fst (run raw_data w) = Ret (PyStr (str e))) /\
  (forall m input0 others input_data e,
     model w = Some m ->
     get_inputs m = input0 :: others ->
     request_array raw_data = Ret input_data ->
     session_run m [(name input0, input_data)] = Raise e ->
     fst (run raw_data w) = Ret (PyStr (str e))).
Proof.
  split; [|split].
  - unfold run, try_except, bind, ret.
    destruct (run_body raw_data w) as [[x|e] w']; cbn [fst].
    + left. exists x. split; reflexivity.
    + right. exists e. split; reflexivity.
  - intros e He. rewrite run_eq, He. reflexivity.
  - intros m input0 others input_data e Hm Hin Hreq Hrun.
    rewrite run_eq, Hreq, Hm, Hin. cbv zeta. rewrite Hrun. reflexivity.
Qed.

(** C2, as the code has it.  On a Ready endpoint, for a request that
    converts to an array of shape (n, 100) on which the session returns its
    outputs, the first of them of shape (n, 1), [run] returns the scalar at
    position [0][0] of that first output: the score of the first sample.
    The scores of the other rows do not reach the result, however many
    samples were sent. *)
Theorem run_returns_first_score
  (w : world) (m : session) (input0 : NodeArg) (others : list NodeArg)
  (raw_data : string) (input_data : ndarray float32) (n : nat)
  (result : ndarray float32) (more_outputs : list (ndarray float32))
  (x : float32) (other_rows : list float32) :
  model w = Some m ->
  get_inputs m = input0 :: others ->
  request_array raw_data = Ret input_data ->
  shape input_data = [n; 100] ->
  session_run m [(name input0, input_data)] = Ret (result :: more_outputs) ->
  well_formed result ->
  shape result = [n; 1] ->
  data result = x :: other_rows ->
  fst (run raw_data w) = Ret (PyFloat x).
Proof.
  intros Hm Hin Hreq _ Hrun Hwf Hshape Hdata.
  rewrite run_eq, Hreq, Hm, Hin. cbv zeta. rewrite Hrun.
  unfold well_formed in Hwf. rewrite Hshape, Hdata in Hwf.
  cbn [size_of fold_right length] in Hwf.
  destruct n as [|n']; [lia|].
  unfold first_score, getitem0.
  cbn [and_then list_getitem0]. rewrite Hshape, Hdata.
  reflexivity.
Qed.

(** C3, as the code has it.  When resolving or loading the registered model
    fails, [init] still returns, prints the failure and leaves [model]
    unbound.  Every [run] that follows finds it unbound, evaluates no
    graph and returns an error string: the text of the decoding error when
    the request does not convert, and otherwise the text of the
    [NameError] for [model].  The service has no result of its own for
    "not ready". *)
Theorem failed_init_then_run_returns_errors
  (w : world) (e : exn) (raws : list string) (raw_data : string) :
  model w = None ->
  registered_model = Raise e ->
  let after_init := snd (init w) in
  let later := serve_all after_init (map Run raws) in
  fst (init w) = Ret tt /\
  model after_init = None /\
  last (effects after_init) (Stdout "") = Stdout (str e) /\
  model later = None /\
  fst (run raw_data later) =
    Ret (PyStr (match request_array raw_data with
                | Raise decoding_error => str decoding_error
                | Ret _ => str (NameError "model")
                end)) /\
  effects (snd (run raw_data later)) = (effects later ++ [received raw_data])%list.
Proof.
  intros Hw Hload after_init later.
  assert (Hafter : model after_init = None).
  { unfold after_init. rewrite init_model, Hload. exact Hw. }
  assert (Hlater : model later = None).
  { unfold later. rewrite runs_keep_model. exact Hafter. }
  split; [apply init_returns|].
  split; [exact Hafter|].
  split.
  { unfold after_init. rewrite init_eq. cbv zeta.
    unfold registered_model in Hload.
    destruct (get_model_path "component_compliance") as [model_path|e'];
      cbn [and_then] in Hload.
    - rewrite Hload. cbn [snd effects]. rewrite last_last. reflexivity.
    - injection Hload as ->. cbn [snd effects]. rewrite last_last. reflexivity. }
  split; [exact Hlater|].
  rewrite run_eq. cbv zeta. rewrite Hlater.
  destruct (request_array raw_data); split; reflexivity.
Qed.

(** C6.  Scoring the same request twice gives the same result twice, and
    leaves [model] as it was: the result of [run] is a function of the
    request and of the model that is loaded, and of nothing else in the
    state. *)
Theorem run_twice_same_result (raw_data : string) (w : world) :
  let first := run raw_data w in
  let second := run raw_data (snd first) in
  fst second = fst first /\
  model (snd second) = model w /\
  (forall w', model w' = model w -> fst (run raw_data w') = fst (run raw_data w)).
Proof.
  cbv zeta. split; [|split].
  - apply run_result_of_model. apply run_keeps_model.
  - rewrite !run_keeps_model. reflexivity.
  - intros w'. apply run_result_of_model.
Qed.

(** C7.  The endpoint is Uninitialized or Ready.  [run] never changes
    [model], nor does any sequence of requests.  The status changes only
    by a call of [init] that loads the registered model, and only from
    Uninitialized to Ready.  From a fresh process, once [model] is bound it
    stays bound to the same model whatever the host calls afterwards. *)
Theorem model_bound_once_by_init :
  (forall w : world, status_of w = Uninitialized \/ status_of w = Ready) /\
  (forall raw_data w, model (snd (run raw_data w)) = model w) /\
  (forall raws w, model (serve_all w (map Run raws)) = model w) /\
  (forall w r,
     status_of (serve w r) <> status_of w ->
     r = Init /\ status_of w = Uninitialized /\ status_of (serve w r) = Ready /\
     exists m, registered_model = Ret m /\ model (serve w r) = Some m) /\
  (forall w,
     status_of w = Uninitialized ->
     (status_of (snd (init w)) = Ready <-> exists m, registered_model = Ret m)) /\
  (forall rs later m,
     model (serve_all fresh rs) = Some m ->
     model (serve_all fresh (rs ++ later)) = Some m).
Proof.
  split; [|split; [|split; [|split; [|split]]]].
  - intros w. unfold status_of. destruct (model w); [right|left]; reflexivity.
  - apply run_keeps_model.
  - apply runs_keep_model.
  - intros w r Hchange. unfold status_of in *.
    destruct r as [|raw]; cbn [serve] in *.
    + rewrite init_model in *.
      destruct registered_model as [m|e].
      * destruct (model w); [contradiction Hchange; reflexivity|].
        repeat split. exists m. split; reflexivity.
      * contradiction Hchange; reflexivity.
    + rewrite run_keeps_model in Hchange. contradiction Hchange; reflexivity.
  - intros w Hw. unfold status_of in *. rewrite init_model.
    destruct registered_model as [m|e].
    + split; [intros _; exists m; reflexivity|reflexivity].
    + destruct (model w); [discriminate|].
      split; [discriminate|intros [m Hm]; discriminate].
  - intros rs later m Hm.
    destruct (model_of_reachable (rs ++ later)) as [Hnone|[m' [Hload Hsome]]].
    + exfalso. revert Hnone. unfold serve_all. rewrite fold_left_app.
      apply bound_stays_bound. unfold serve_all in Hm. congruence.
    + destruct (model_of_reachable rs) as [Hnone|[m0 [Hload0 Hsome0]]];
        congruence.
Qed.

(** C9, as the code has it.  On a Ready endpoint whose session answers
    with one output row per input row, a request that converts to an array
    without rows (as the document of an empty list does) returns an error
    string and never a float, and the string is the text of whatever was
    raised first: when the session raises, its error, and [result[0][0]] is
    never evaluated; when the session returns an output, the index error of
    [result[0]], whose first axis has size 0.  [run] has no branch of its
    own for zero samples. *)
Theorem empty_request_returns_error_string
  (w : world) (m : session) (raw_data : string)
  (input_data : ndarray float32) (dims : list nat) :
  model w = Some m ->
  one_row_per_sample m ->
  request_array raw_data = Ret input_data ->
  shape input_data = 0 :: dims ->
  (exists error, fst (run raw_data w) = Ret (PyStr error)) /\
  (forall input0 others e,
     get_inputs m = input0 :: others ->
     session_run m [(name input0, input_data)] = Raise e ->
     fst (run raw_data w) = Ret (PyStr (str e))) /\
  (forall input0 others result more_outputs,
     get_inputs m = input0 :: others ->
     session_run m [(name input0, input_data)] = Ret (result :: more_outputs) ->
     fst (run raw_data w)
     = Ret (PyStr (str (IndexError
                          "index 0 is out of bounds for axis 0 with size 0")))).
Proof.
  intros Hm Hrows Hreq Hshape.
  assert (Hindex : forall fed result more_outputs,
            session_run m [(fed, input_data)] = Ret (result :: more_outputs) ->
            first_score (result :: more_outputs)
            = Raise (IndexError "index 0 is out of bounds for axis 0 with size 0")).
  { intros fed result more_outputs Hrun.
    apply Hrows in Hrun. rewrite Hshape in Hrun. cbn [hd_error] in Hrun.
    unfold first_score, getitem0. cbn [and_then list_getitem0].
    destruct (shape result) as [|d ds]; [discriminate|].
    injection Hrun as ->. reflexivity. }
  rewrite run_eq, Hreq, Hm. cbv zeta.
  split; [|split].
  - destruct (get_inputs m) as [|input0 others]; [eexists; reflexivity|].
    destruct (session_run m [(name input0, input_data)]) as [outputs|e] eqn:Hrun;
      cbn [and_then]; [|eexists; reflexivity].
    destruct outputs as [|result more_outputs]; [eexists; reflexivity|].
    rewrite (Hindex _ _ _ Hrun). eexists; reflexivity.
  - intros input0 others e Hin Hrun. rewrite Hin, Hrun. reflexivity.
  - intros input0 others result more_outputs Hin Hrun. rewrite Hin, Hrun.
    cbn [and_then]. rewrite (Hindex _ _ _ Hrun). reflexivity.
Qed.

(** C10, as the code has it.  [run] checks no value of the request.
    Whenever the request decodes and converts, whatever its values, a Ready
    endpoint evaluates the session exactly once, on the converted array as
    it is, and the outcome of that evaluation alone decides the result: the
    first score of the outputs, or the text of what the evaluation
    raised. *)
Theorem request_reaches_model_unchecked
  (w : world) (m : session) (input0 : NodeArg) (others : list NodeArg)
  (raw_data : string) (input_data : ndarray float32) :
  model w = Some m ->
  get_inputs m = input0 :: others ->
  request_array raw_data = Ret input_data ->
  let feeds := [(name input0, input_data)] in
  effects (snd (run raw_data w)) =
    (effects w ++ [received raw_data; Inference m feeds])%list /\
  fst (run raw_data w) =
    match and_then (session_run m feeds) first_score with
    | Ret x => Ret (PyFloat x)
    | Raise e => Ret (PyStr (str e))
    end.
Proof.
  intros Hm Hin Hreq feeds.
  rewrite run_eq, Hreq, Hm, Hin. cbv zeta. fold feeds.
  destruct (and_then (session_run m feeds) first_score);
    cbn [fst snd effects]; rewrite <- app_assoc; split; reflexivity.
Qed.

End ServiceProperties.

(** * Properties of the network and of its graph *)

Section NetworkProperties.
Import Keras Onnx.
Local Open Scope R_scope.

Lemma sigmoid_bounds (z : R) : 0 < sigmoid z < 1.
Proof.
  unfold sigmoid. pose proof (exp_pos (- z)) as He. split.
  - apply Rdiv_lt_0_compat; lra.
  - apply (Rmult_lt_reg_r (1 + exp (- z))); [lra|].
    unfold Rdiv. rewrite Rmult_assoc, Rinv_l; lra.
Qed.

Lemma sigmoid_opposite (z : R) : sigmoid (- z) = 1 - sigmoid z.
Proof.
  unfold sigmoid. rewrite Ropp_involutive, exp_Ropp.
  pose proof (exp_pos z) as He. field. split; lra.
Qed.

Lemma sigmoid_logit (p : R) : 0 < p < 1 -> sigmoid (ln (p / (1 - p))) = p.
Proof.
  intros [Hlo Hhi]. unfold sigmoid.
  assert (Hq : 0 < p / (1 - p)) by (apply Rdiv_lt_0_compat; lra).
  rewrite exp_Ropp, exp_ln by exact Hq. field. lra.
Qed.

Lemma dot_zero_column (i : nat) (x : list R) : dot i x (fun _ => 0) = 0.
Proof.
  revert i. induction x as [|xi x IH]; intros i; [reflexivity|].
  cbn [dot]. rewrite IH. ring.
Qed.

Lemma dot_opposite_column (i : nat) (x : list R) (column : nat -> R) :
  dot i x (fun k => - column k) = - dot i x column.
Proof.
  revert i. induction x as [|xi x IH]; intros i; cbn [dot]; [ring|].
  rewrite IH. ring.
Qed.

(** The architecture does not fix which end of the interval a sample
    scores at: negating the output unit turns every score [x] into
    [1 - x], and every score strictly between 0 and 1 is the score some
    weights give to all samples. *)
Lemma opposite_predict (w : weights) (tokens : list Z) :
  predict (opposite w) tokens = map (fun x => 1 - x) (predict w tokens).
Proof.
  unfold predict. cbn [opposite kernel2 bias2 kernel1 bias1 embeddings].
  set (hidden := Dense 32 relu (kernel1 w) (bias1 w) _).
  unfold Dense. cbn [seq map].
  rewrite dot_opposite_column, <- sigmoid_opposite.
  do 2 f_equal. ring.
Qed.

Lemma any_score_has_weights (p : R) :
  0 < p < 1 -> exists w, forall tokens, predict w tokens = [p].
Proof.
  intros Hp.
  exists (mkWeights (fun _ _ => 0) (fun _ _ => 0) (fun _ => 0) (fun _ _ => 0)
            (fun _ => ln (p / (1 - p)))).
  intros tokens. unfold predict. unfold Dense at 1.
  cbn [seq map kernel2 bias2]. rewrite dot_zero_column, Rplus_0_l.
  rewrite sigmoid_logit by exact Hp. reflexivity.
Qed.

(** The last layer has one unit, a sigmoid. *)
Lemma predict_is_sigmoid (w : weights) (tokens : list Z) :
  exists z, predict w tokens = [sigmoid z].
Proof.
  unfold predict. unfold Dense at 1. cbn [seq map]. eexists. reflexivity.
Qed.

Lemma trunc_IZR (k : Z) : trunc (IZR k) = k.
Proof.
  unfold trunc. destruct (Rle_dec 0 (IZR k)) as [_|_].
  - symmetry. apply Int_part_spec. lra.
  - rewrite <- opp_IZR.
    rewrite <- (Int_part_spec (IZR (- k)) (- k)%Z); [lia|lra].
Qed.

Lemma trunc_in_vocabulary (x : R) :
  in_vocabulary x -> (0 <= trunc x < max_words)%Z.
Proof.
  unfold in_vocabulary, trunc. intros [Hlo Hhi].
  destruct (Rle_dec 0 x) as [_|Hneg]; [|contradiction].
  destruct (base_Int_part x) as [Hle Hgt]. split.
  - assert (H : (-1 < Int_part x)%Z) by (apply lt_IZR; lra). lia.
  - apply lt_IZR. lra.
Qed.

Lemma gather_index_in_range (i : Z) :
  (0 <= i < max_words)%Z -> gather_index i = Ret i.
Proof.
  intros Hi. unfold gather_index.
  assert (Hpos : (0 < max_words)%Z) by reflexivity.
  replace ((i <? - max_words)%Z || (max_words <=? i)%Z) with false.
  - rewrite Z.mod_small by exact Hi. reflexivity.
  - symmetry. apply orb_false_intro; [apply Z.ltb_ge|apply Z.leb_gt]; lia.
Qed.

Lemma gather_index_beyond (i : Z) :
  (max_words <= i)%Z -> gather_index i = Raise (out_of_data_bounds i).
Proof.
  intros Hi. unfold gather_index.
  replace (max_words <=? i)%Z with true by (symmetry; apply Z.leb_le; exact Hi).
  rewrite orb_true_r. reflexivity.
Qed.

Lemma tokens_in_vocabulary (row : list R) :
  Forall in_vocabulary row ->
  mapM (fun x => gather_index (trunc x)) row = Ret (map trunc row).
Proof.
  induction 1 as [|x row Hx _ IH]; [reflexivity|].
  cbn [mapM map]. fold (mapM (fun x => gather_index (trunc x)) row).
  rewrite gather_index_in_range by (apply trunc_in_vocabulary; exact Hx).
  cbn [and_then]. rewrite IH. reflexivity.
Qed.

Lemma score_row_in_vocabulary (w : weights) (row : list R) :
  Forall in_vocabulary row -> score_row w row = Ret (predict w (map trunc row)).
Proof.
  intros Hrow. unfold score_row. rewrite tokens_in_vocabulary by exact Hrow.
  reflexivity.
Qed.

(** An index [Gather] refuses at the head of a row, or of the first row of
    an input, is the error of the whole evaluation. *)
Lemma score_row_first_refused (w : weights) (x : R) (rest : list R) (e : exn) :
  gather_index (trunc x) = Raise e -> score_row w (x :: rest) = Raise e.
Proof.
  intros He. unfold score_row. cbn [mapM]. rewrite He. reflexivity.
Qed.

Lemma run_graph_first_refused
  (w : weights) (input : ndarray R) (n : nat) (x : R) (rest : list R) (e : exn) :
  shape input = [S n; maxlen] ->
  data input = x :: rest ->
  gather_index (trunc x) = Raise e ->
  run_graph w input = Raise e.
Proof.
  intros Hshape Hdata He. unfold run_graph. rewrite Hshape, Hdata.
  rewrite Nat.eqb_refl. cbn [rows firstn maxlen mapM].
  rewrite (score_row_first_refused w x _ e He). reflexivity.
Qed.

Lemma Forall_firstn {A : Type} (P : A -> Prop) (n : nat) (l : list A) :
  Forall P l -> Forall P (firstn n l).
Proof.
  revert l. induction n as [|n IH]; intros l Hl; [constructor|].
  destruct Hl as [|x l Hx Hl]; [constructor|].
  cbn [firstn]. constructor; [exact Hx|apply IH; exact Hl].
Qed.

Lemma Forall_skipn {A : Type} (P : A -> Prop) (n : nat) (l : list A) :
  Forall P l -> Forall P (skipn n l).
Proof.
  revert l. induction n as [|n IH]; intros l Hl; [exact Hl|].
  destruct Hl as [|x l Hx Hl]; [constructor|].
  cbn [skipn]. apply IH. exact Hl.
Qed.

Lemma rows_Forall {A : Type} (P : A -> Prop) (n width : nat) (buffer : list A) :
  Forall P buffer -> Forall (Forall P) (rows n width buffer).
Proof.
  revert buffer. induction n as [|n IH]; intros buffer Hb; [constructor|].
  cbn [rows]. constructor; [apply Forall_firstn; exact Hb|].
  apply IH. apply Forall_skipn. exact Hb.
Qed.

Lemma rows_length {A : Type} (n width : nat) (buffer : list A) :
  length (rows n width buffer) = n.
Proof.
  revert buffer. induction n as [|n IH]; intros buffer; [reflexivity|].
  cbn [rows length]. rewrite IH. reflexivity.
Qed.

Lemma score_rows_in_vocabulary (w : weights) (samples : list (list R)) :
  Forall (Forall in_vocabulary) samples ->
  mapM (score_row w) samples
  = Ret (map (fun row => predict w (map trunc row)) samples).
Proof.
  induction 1 as [|row samples Hrow _ IH]; [reflexivity|].
  cbn [mapM map]. fold (mapM (score_row w) samples).
  rewrite (score_row_in_vocabulary w row Hrow), IH. reflexivity.
Qed.

(** The graph scores every sample of an input whose values are tokens of
    the vocabulary: the prediction of the network for each row. *)
Lemma run_graph_in_vocabulary (w : weights) (input : ndarray R) (n : nat) :
  shape input = [n; maxlen] ->
  Forall in_vocabulary (data input) ->
  run_graph w input
  = Ret (mkArray [n; 1%nat]
           (concat (map (fun row => predict w (map trunc row))
                        (rows n maxlen (data input))))).
Proof.
  intros Hshape Hdata. unfold run_graph. rewrite Hshape, Nat.eqb_refl.
  rewrite score_rows_in_vocabulary by (apply rows_Forall; exact Hdata).
  reflexivity.
Qed.

(** The graph answers with one output row per input row. *)
Lemma run_graph_shape (w : weights) (input output : ndarray R) :
  run_graph w input = Ret output ->
  hd_error (shape output) = hd_error (shape input).
Proof.
  unfold run_graph.
  destruct (shape input) as [|n [|width [|d ds]]]; try discriminate.
  destruct (Nat.eqb width maxlen); [|discriminate].
  destruct (mapM _ _); cbn [and_then]; [|discriminate].
  intros [= <-]. reflexivity.
Qed.

End NetworkProperties.

(** * Properties of the deployed service *)

Section DeployedProperties.
Import Keras.
Local Open Scope R_scope.
Variables (object array : Type).
Variable loads : string -> outcome object.
Variable to_array : object -> outcome array.
Variable to_float32 : array -> outcome (ndarray R).
Variable registry : string -> outcome string.
Variable loader : string -> outcome weights.

Let service : Runtime :=
  deployed object array loads to_array to_float32 registry loader.

(** A Ready endpoint scores a request of at least one sample of [maxlen]
    tokens of the vocabulary: the result is the sigmoid the network
    computes for the first sample. *)
Lemma deployed_run_scores
  (w : @world service) (m : weights) (raw_data : string)
  (input_data : ndarray R) (n : nat) :
  model w = Some m ->
  @request_array service raw_data = Ret input_data ->
  shape input_data = [n; maxlen] ->
  (0 < n)%nat ->
  Forall in_vocabulary (data input_data) ->
  exists z, fst (@run service raw_data w) = Ret (@PyFloat service (sigmoid z)).
Proof.
  intros Hm Hreq Hshape Hn Hdata.
  rewrite (@run_eq service), Hreq, Hm. cbv zeta.
  cbn [get_inputs service deployed name session_run].
  unfold Onnx.run_session. rewrite String.eqb_refl.
  rewrite (run_graph_in_vocabulary m input_data n Hshape Hdata).
  destruct n as [|n']; [lia|].
  cbn [Onnx.rows map concat].
  destruct (predict_is_sigmoid m (map Onnx.trunc (firstn maxlen (data input_data))))
    as [z Hz].
  exists z. rewrite Hz. reflexivity.
Qed.

(** The sessions of the deployed service answer with one output row per
    input row. *)
Lemma deployed_one_row_per_sample (m : weights) : @one_row_per_sample service m.
Proof.
  intros fed input result others. cbn [session_run service deployed].
  unfold Onnx.run_session.
  destruct (String.eqb fed Onnx.input_name); [|discriminate].
  destruct (Onnx.run_graph m input) as [y|e] eqn:Hy; cbn [and_then]; [|discriminate].
  intros [= <- <-]. apply (run_graph_shape m). exact Hy.
Qed.

(** C4.  On a Ready endpoint of the deployed service, a request that
    converts to one sample of [maxlen] values, each a token of the
    vocabulary, returns a float, and that float lies between 0 and 1: it is
    the output of the sigmoid that ends the network. *)
Theorem valid_request_scores_in_unit_interval
  (w : @world service) (m : weights) (raw_data : string)
  (input_data : ndarray R) :
  model w = Some m ->
  @request_array service raw_data = Ret input_data ->
  shape input_data = [1%nat; maxlen] ->
  Forall in_vocabulary (data input_data) ->
  exists x : R,
    fst (@run service raw_data w) = Ret (@PyFloat service x) /\ 0 <= x <= 1.
Proof.
  intros Hm Hreq Hshape Hdata.
  destruct (deployed_run_scores w m raw_data input_data 1 Hm Hreq Hshape
              (Nat.lt_0_succ 0) Hdata) as [z Hz].
  exists (sigmoid z). split; [exact Hz|].
  pose proof (sigmoid_bounds z). lra.
Qed.

(** C8, as the code has it.  On a Ready endpoint of the deployed service, a
    request that converts to an array of shape (n, maxlen) with at least
    one sample whose values are all tokens of the vocabulary never reaches
    the handler: the [try] suite of [run] completes and [run] returns the
    float it computed. *)
Theorem in_vocabulary_request_returns_float
  (w : @world service) (m : weights) (raw_data : string)
  (input_data : ndarray R) (n : nat) :
  model w = Some m ->
  @request_array service raw_data = Ret input_data ->
  shape input_data = [n; maxlen] ->
  (0 < n)%nat ->
  Forall in_vocabulary (data input_data) ->
  exists x : R,
    fst (@run_body service raw_data w) = Ret x /\
    fst (@run service raw_data w) = Ret (@PyFloat service x).
Proof.
  intros Hm Hreq Hshape Hn Hdata.
  destruct (deployed_run_scores w m raw_data input_data n Hm Hreq Hshape Hn Hdata)
    as [z Hz].
  exists (sigmoid z). split; [|exact Hz].
  rewrite (@run_of_body service) in Hz.
  destruct (fst (@run_body service raw_data w)) as [x|e]; [|discriminate].
  injection Hz as ->. reflexivity.
Qed.

End DeployedProperties.

(** * The reference deployment at work *)

Section ReferenceExamples.
Import Reference.
Local Open Scope R_scope.

(** The untrained graph scores every sample one half. *)
Lemma untrained_predict (row : list Z) : Keras.predict untrained row = [1 / 2].
Proof.
  unfold Keras.predict. unfold Keras.Dense at 1. cbn [seq map untrained Keras.kernel2 Keras.bias2].
  rewrite dot_zero_column. unfold Keras.sigmoid.
  replace (- (0 + 0)) with 0 by ring. rewrite exp_0.
  reflexivity.
Qed.

Lemma untrained_scores (samples : list (list R)) :
  concat (map (fun row => Keras.predict untrained (map Onnx.trunc row)) samples)
  = repeat (1 / 2) (length samples).
Proof.
  induction samples as [|row samples IH]; [reflexivity|].
  cbn [map concat length repeat]. rewrite untrained_predict, IH. reflexivity.
Qed.

Lemma token_value (t : Z) : Numpy.to_real (Json.Float (10 * t) (-1)) = IZR t.
Proof.
  unfold Numpy.to_real. change (0 <=? -1)%Z with false. cbv iota.
  change (10 ^ (- -1))%Z with 10%Z.
  rewrite mult_IZR. field.
Qed.

Lemma tokens_in_range (row : list Z) :
  Forall (fun t => (0 <= t < Keras.max_words)%Z) row ->
  Forall Keras.in_vocabulary (tokens row).
Proof.
  unfold tokens. induction 1 as [|t row [Hlo Hhi] _ IH]; [constructor|].
  cbn [map]. constructor; [|exact IH].
  rewrite token_value. unfold Keras.in_vocabulary.
  split; [apply IZR_le; exact Hlo|apply IZR_lt; exact Hhi].
Qed.

Lemma repeat_in_range (t : Z) (k : nat) :
  (0 <= t < Keras.max_words)%Z ->
  Forall (fun t => (0 <= t < Keras.max_words)%Z) (repeat t k).
Proof.
  intros Ht. apply Forall_forall. intros t' Hin.
  apply repeat_spec in Hin. subst t'. exact Ht.
Qed.

(** On either deployment every session answers one row per sample. *)
Lemma reference_one_row_per_sample (files : list (string * Keras.weights))
  (m : Keras.weights) : @one_row_per_sample (service files) m.
Proof. apply deployed_one_row_per_sample. Qed.

(** The untrained graph on an input of tokens. *)
Lemma untrained_run_session (input : ndarray R) (n : nat) :
  shape input = [n; Keras.maxlen] ->
  Forall Keras.in_vocabulary (data input) ->
  Onnx.run_session untrained [(Onnx.input_name, input)]
  = Ret [mkArray [n; 1%nat] (repeat (1 / 2) n)].
Proof.
  intros Hshape Hdata. unfold Onnx.run_session. rewrite String.eqb_refl.
  rewrite (run_graph_in_vocabulary untrained input n Hshape Hdata).
  rewrite untrained_scores, rows_length. reflexivity.
Qed.

Lemma two_samples_in_vocabulary : Forall Keras.in_vocabulary (data two_samples_input).
Proof.
  apply tokens_in_range. apply Forall_app.
  split; apply repeat_in_range; split; (discriminate || reflexivity).
Qed.

Lemma sample_in_vocabulary : Forall Keras.in_vocabulary (data sample_input).
Proof.
  apply tokens_in_range. apply repeat_in_range.
  split; (discriminate || reflexivity).
Qed.

(** [run] on the healthy deployment after [init]: the request converted,
    the untrained graph evaluated on it, the first score read. *)
Lemma healthy_run (raw_data : string) (input_data : ndarray R) :
  @request_array healthy raw_data = Ret input_data ->
  fst (@run healthy raw_data ready)
  = match and_then (Onnx.run_session untrained [(Onnx.input_name, input_data)])
            (@first_score healthy) with
    | Ret x => Ret (@PyFloat healthy x)
    | Raise e => Ret (@PyStr healthy (str e))
    end.
Proof.
  intros Hreq. rewrite (@run_eq healthy), Hreq. cbv zeta.
  change (@model healthy ready) with (Some untrained).
  cbn [get_inputs healthy service deployed name session_run].
  destruct (and_then _ _); reflexivity.
Qed.

(** The decoder and the conversions on a few documents, and the two
    deployments after [init]. *)
Example loads_empty_body :
  Json.loads ""
  = Raise (mkExn "JSONDecodeError" "Expecting value: line 1 column 1 (char 0)").
Proof. reflexivity. Qed.

Example loads_unclosed_array :
  Json.loads "[1, 2"
  = Raise (mkExn "JSONDecodeError" "Expecting ',' delimiter: line 1 column 6 (char 5)").
Proof. reflexivity. Qed.

Example loads_trailing_text :
  Json.loads "[1, 2] x"
  = Raise (mkExn "JSONDecodeError" "Extra data: line 1 column 8 (char 7)").
Proof. reflexivity. Qed.

Example loads_rows :
  Json.loads " [[1.0, -2.50e3], [3, 4e-2]] "
  = Ret (Json.Array
      [Json.Array [Json.Number (Json.Float 10 (-1)); Json.Number (Json.Float (-250) 1)];
       Json.Array [Json.Number (Json.Int 3); Json.Number (Json.Float 4 (-2))]]).
Proof. reflexivity. Qed.

Example dumps_rows : Json.dumps [[12; 0]%Z; [7; 3]%Z] = "[[12.0, 0.0], [7.0, 3.0]]"%string.
Proof. reflexivity. Qed.

Example array_of_rows :
  and_then (Json.loads "[[1, 2, 3], [4, 5, 6]]") Numpy.array
  = Ret (mkArray [2%nat; 3%nat]
      [Json.Int 1; Json.Int 2; Json.Int 3; Json.Int 4; Json.Int 5; Json.Int 6]).
Proof. reflexivity. Qed.

Example array_of_ragged_rows :
  and_then (Json.loads "[[1, 2, 3], [4, 5]]") Numpy.array
  = Raise (ValueError "setting an array element with a sequence.").
Proof. reflexivity. Qed.

Example array_of_empty_list :
  and_then (Json.loads "[]") Numpy.array = Ret (mkArray [0%nat] []).
Proof. reflexivity. Qed.

Example healthy_init_prints :
  effects ready
  = [@Stdout healthy
       "Loading model from:  azureml-models/component_compliance/1/component_compliance.onnx";
     @Stdout healthy "Model loaded..."].
Proof. reflexivity. Qed.

Example broken_init_prints :
  effects failed
  = [@Stdout broken
       "Loading model from:  azureml-models/component_compliance/1/component_compliance.onnx";
     @Stdout broken
       "Load model from azureml-models/component_compliance/1/component_compliance.onnx failed. File doesn't exist"].
Proof. reflexivity. Qed.

Example empty_request_text :
  fst (@run healthy "[]" ready)
  = Ret (@PyStr healthy "Invalid rank for input: embedding_1_input Got: 1 Expected: 2").
Proof. reflexivity. Qed.

Example sample_scores_one_half :
  fst (@run healthy sample ready) = Ret (@PyFloat healthy (1 / 2)).
Proof.
  rewrite (healthy_run sample sample_input eq_refl).
  rewrite (untrained_run_session sample_input 1 eq_refl sample_in_vocabulary).
  reflexivity.
Qed.

(** C1, at work: a vector of length 50 is answered with the text of the
    error the session raised. *)
Lemma run_never_raises_witness :
  @request_array healthy short_vector = Ret short_input /\
  fst (@run healthy short_vector ready)
  = Ret (@PyStr healthy
      "Got invalid dimensions for input: embedding_1_input for the following indices index: 1 Got: 50 Expected: 100").
Proof.
  assert (Hreq : @request_array healthy short_vector = Ret short_input)
    by reflexivity.
  split; [exact Hreq|].
  apply (proj2 (proj2 (@run_never_raises healthy short_vector ready))
           untrained (mkNodeArg Onnx.input_name) [] short_input
           (Onnx.InvalidArgument
              "Got invalid dimensions for input: embedding_1_input for the following indices index: 1 Got: 50 Expected: 100"));
    [reflexivity|reflexivity|exact Hreq|reflexivity].
Defined.

(** C2, at work: of two samples only the score of the first comes back. *)
Lemma run_returns_first_score_witness :
  @request_array healthy two_samples = Ret two_samples_input /\
  @session_run healthy untrained [(Onnx.input_name, two_samples_input)]
  = Ret [mkArray [2%nat; 1%nat] [1 / 2; 1 / 2]] /\
  fst (@run healthy two_samples ready) = Ret (@PyFloat healthy (1 / 2)).
Proof.
  assert (Hreq : @request_array healthy two_samples = Ret two_samples_input)
    by reflexivity.
  assert (Hrun : @session_run healthy untrained [(Onnx.input_name, two_samples_input)]
                 = Ret [mkArray [2%nat; 1%nat] [1 / 2; 1 / 2]]).
  { apply (untrained_run_session two_samples_input 2);
      [reflexivity|exact two_samples_in_vocabulary]. }
  split; [exact Hreq|split; [exact Hrun|]].
  apply (@run_returns_first_score healthy ready untrained
           (mkNodeArg Onnx.input_name) [] two_samples two_samples_input 2
           (mkArray [2%nat; 1%nat] [1 / 2; 1 / 2]) [] (1 / 2) [1 / 2]);
    [reflexivity|reflexivity|exact Hreq|reflexivity|exact Hrun
    |reflexivity|reflexivity|reflexivity].
Defined.

(** C2 as stated fails: a request of shape (2, 100) whose first sample
    alone is scored one half gets no score when its second sample holds an
    index [Gather] refuses.  The evaluation of the batch raises, and [run]
    returns the text of that error instead of the scalar at [0][0]. *)
Lemma later_row_error_discards_the_first_score :
  @model healthy ready = Some untrained /\
  @request_array healthy second_row_beyond = Ret second_row_beyond_input /\
  shape second_row_beyond_input = [2%nat; 100%nat] /\
  fst (@run healthy sample ready) = Ret (@PyFloat healthy (1 / 2)) /\
  fst (@run healthy second_row_beyond ready)
  = Ret (@PyStr healthy
      "indices element out of data bounds, idx=20000 must be within the inclusive range [-10000,9999]").
Proof.
  assert (Hreq : @request_array healthy second_row_beyond
                 = Ret second_row_beyond_input) by reflexivity.
  split; [reflexivity|split; [exact Hreq|split; [reflexivity|]]].
  split; [exact sample_scores_one_half|].
  rewrite (healthy_run second_row_beyond second_row_beyond_input Hreq).
  unfold Onnx.run_session. rewrite String.eqb_refl.
  unfold Onnx.run_graph.
  change (shape second_row_beyond_input) with [2%nat; Keras.maxlen].
  cbv iota beta. rewrite Nat.eqb_refl.
  change (Onnx.rows 2 Keras.maxlen (data second_row_beyond_input))
    with [tokens (repeat 7%Z 100);
          Numpy.to_real (Json.Float (10 * 20000) (-1)) :: tokens (repeat 0%Z 99)].
  cbn [mapM].
  rewrite (score_row_in_vocabulary untrained (tokens (repeat 7%Z 100))
             sample_in_vocabulary).
  assert (Hgather :
    Onnx.gather_index (Onnx.trunc (Numpy.to_real (Json.Float (10 * 20000) (-1))))
    = Raise (Onnx.out_of_data_bounds 20000))
    by (rewrite token_value, trunc_IZR; apply gather_index_beyond; discriminate).
  rewrite (score_row_first_refused untrained _ _ _ Hgather).
  reflexivity.
Qed.

(** C3 as the spec has it fails: after [init] has failed, a request that
    is no JSON is answered with the text of the decoding error, which is
    not the text that reports the unbound [model]. *)
Lemma failed_init_run_reports_decoding_error :
  fst (@init broken fresh) = Ret tt /\
  @model broken failed = None /\
  fst (@run broken "not json" failed)
  = Ret (@PyStr broken "Expecting value: line 1 column 1 (char 0)") /\
  fst (@run broken "not json" failed)
  <> Ret (@PyStr broken (str (NameError "model"))).
Proof.
  assert (Hrun : fst (@run broken "not json" failed)
                 = Ret (@PyStr broken "Expecting value: line 1 column 1 (char 0)"))
    by reflexivity.
  split; [reflexivity|split; [reflexivity|split; [exact Hrun|]]].
  rewrite Hrun. intros H. injection H as H. cbn in H. discriminate H.
Qed.

(** C3, at work: the deployment without the graph. *)
Lemma failed_init_then_run_returns_errors_witness :
  @model broken fresh = None /\
  @registered_model broken = Raise no_such_file /\
  @model broken (serve_all failed [Run sample]) = None /\
  fst (@run broken "not json" (serve_all failed [Run sample]))
  = Ret (@PyStr broken "Expecting value: line 1 column 1 (char 0)") /\
  fst (@run broken sample (serve_all failed [Run sample]))
  = Ret (@PyStr broken "name 'model' is not defined").
Proof.
  assert (Hw : @model broken fresh = None) by reflexivity.
  assert (Hload : @registered_model broken = Raise no_such_file) by reflexivity.
  split; [exact Hw|split; [exact Hload|]].
  destruct (@failed_init_then_run_returns_errors broken fresh no_such_file
              [sample] "not json" Hw Hload) as (_ & _ & _ & Hlater & Hrun & _).
  destruct (@failed_init_then_run_returns_errors broken fresh no_such_file
              [sample] sample Hw Hload) as (_ & _ & _ & _ & Hrun' & _).
  split; [exact Hlater|split; [exact Hrun|exact Hrun']].
Defined.

(** C4, at work: the sample request on the healthy deployment. *)
Lemma valid_request_scores_in_unit_interval_witness :
  @request_array healthy sample = Ret sample_input /\
  exists x : R,
    fst (@run healthy sample ready) = Ret (@PyFloat healthy x) /\ 0 <= x <= 1.
Proof.
  assert (Hreq : @request_array healthy sample = Ret sample_input) by reflexivity.
  split; [exact Hreq|].
  apply (valid_request_scores_in_unit_interval _ _ Json.loads Numpy.array
           Numpy.astype_float32 registry (loader registered)
           ready untrained sample sample_input);
    [reflexivity|exact Hreq|reflexivity|exact sample_in_vocabulary].
Defined.

(** On the healthy deployment, one sample whose first value is an index
    at or beyond the size of the vocabulary is answered with the text of
    the error [Gather] raises. *)
Lemma first_token_refused (raw_data : string) (t : Z) (rest : list Z) :
  (Keras.max_words <= t)%Z ->
  @request_array healthy raw_data
  = Ret (mkArray [1%nat; Keras.maxlen] (tokens (t :: rest))) ->
  fst (@run healthy raw_data ready)
  = Ret (@PyStr healthy (str (Onnx.out_of_data_bounds t))).
Proof.
  intros Ht Hreq. rewrite (healthy_run raw_data _ Hreq).
  unfold Onnx.run_session. rewrite String.eqb_refl.
  assert (Hgather :
    Onnx.gather_index (Onnx.trunc (Numpy.to_real (Json.Float (10 * t) (-1))))
    = Raise (Onnx.out_of_data_bounds t))
    by (rewrite token_value, trunc_IZR; apply gather_index_beyond; exact Ht).
  rewrite (run_graph_first_refused untrained
             (mkArray [1%nat; Keras.maxlen] (tokens (t :: rest))) 0 _ _ _
             eq_refl eq_refl Hgather).
  reflexivity.
Qed.

(** C8 as stated fails: a well-formed request of one sample of 100 numbers
    reaches the handler when a number is no token of the vocabulary. *)
Lemma beyond_vocabulary_returns_error_string :
  @model healthy ready = Some untrained /\
  @request_array healthy beyond_vocabulary = Ret beyond_input /\
  shape beyond_input = [1%nat; 100%nat] /\
  fst (@run healthy beyond_vocabulary ready)
  = Ret (@PyStr healthy
      "indices element out of data bounds, idx=20000 must be within the inclusive range [-10000,9999]").
Proof.
  repeat split; try reflexivity.
  apply (first_token_refused beyond_vocabulary 20000 (repeat 0%Z 99));
    [discriminate|reflexivity].
Qed.

(** C8, at work: two samples of tokens. *)
Lemma in_vocabulary_request_returns_float_witness :
  @request_array healthy two_samples = Ret two_samples_input /\
  exists x : R,
    fst (@run_body healthy two_samples ready) = Ret x /\
    fst (@run healthy two_samples ready) = Ret (@PyFloat healthy x).
Proof.
  assert (Hreq : @request_array healthy two_samples = Ret two_samples_input)
    by reflexivity.
  split; [exact Hreq|].
  apply (in_vocabulary_request_returns_float _ _ Json.loads Numpy.array
           Numpy.astype_float32 registry (loader registered)
           ready untrained two_samples two_samples_input 2);
    [reflexivity|exact Hreq|reflexivity|lia|exact two_samples_in_vocabulary].
Defined.

(** C9 as stated fails: the document of the empty list converts to an
    array of one axis, the session refuses it for its rank, and the text
    that comes back is the session's: [result[0][0]] is not evaluated, and
    no index error is raised or caught. *)
Lemma empty_list_is_refused_for_its_rank :
  @model healthy ready = Some untrained /\
  @request_array healthy "[]" = Ret (mkArray [0%nat] []) /\
  @session_run healthy untrained [(Onnx.input_name, mkArray [0%nat] [])]
  = Raise (Onnx.InvalidArgument
      "Invalid rank for input: embedding_1_input Got: 1 Expected: 2") /\
  fst (@run healthy "[]" ready)
  = Ret (@PyStr healthy "Invalid rank for input: embedding_1_input Got: 1 Expected: 2") /\
  fst (@run healthy "[]" ready)
  <> Ret (@PyStr healthy
       (str (IndexError "index 0 is out of bounds for axis 0 with size 0"))) /\
  fst (@run healthy "[]" ready)
  <> Ret (@PyStr healthy (str (IndexError "list index out of range"))).
Proof.
  assert (Hrun : fst (@run healthy "[]" ready)
                 = Ret (@PyStr healthy
                     "Invalid rank for input: embedding_1_input Got: 1 Expected: 2"))
    by reflexivity.
  split; [reflexivity|split; [reflexivity|split; [reflexivity|]]].
  split; [exact Hrun|].
  rewrite Hrun.
  split; intros H; injection H as H; cbn in H; discriminate H.
Qed.

(** C9, at work: the document of the empty list, answered with the text of
    what the session raised. *)
Lemma empty_request_returns_error_string_witness :
  @request_array healthy "[]" = Ret (mkArray [0%nat] []) /\
  @session_run healthy untrained [(Onnx.input_name, mkArray [0%nat] [])]
  = Raise (Onnx.InvalidArgument
      "Invalid rank for input: embedding_1_input Got: 1 Expected: 2") /\
  fst (@run healthy "[]" ready)
  = Ret (@PyStr healthy "Invalid rank for input: embedding_1_input Got: 1 Expected: 2").
Proof.
  assert (Hreq : @request_array healthy "[]" = Ret (mkArray [0%nat] []))
    by reflexivity.
  assert (Hraise :
    @session_run healthy untrained [(Onnx.input_name, mkArray [0%nat] [])]
    = Raise (Onnx.InvalidArgument
        "Invalid rank for input: embedding_1_input Got: 1 Expected: 2"))
    by reflexivity.
  split; [exact Hreq|split; [exact Hraise|]].
  destruct (@empty_request_returns_error_string healthy ready untrained "[]"
              (mkArray [0%nat] []) [] eq_refl
              (reference_one_row_per_sample registered untrained) Hreq eq_refl)
    as (_ & Hsession & _).
  exact (Hsession (mkNodeArg Onnx.input_name) [] _ eq_refl Hraise).
Defined.

(** C10 as stated fails: a request that decodes and converts is handed to
    the session, and yet is not scored when a value is the size of the
    vocabulary: what comes back is the text of the session's error. *)
Lemma vocabulary_size_index_is_not_scored :
  @request_array healthy at_vocabulary_size = Ret at_size_input /\
  In (@Inference healthy untrained [(Onnx.input_name, at_size_input)])
     (effects (snd (@run healthy at_vocabulary_size ready))) /\
  fst (@run healthy at_vocabulary_size ready)
  = Ret (@PyStr healthy
      "indices element out of data bounds, idx=10000 must be within the inclusive range [-10000,9999]").
Proof.
  assert (Hreq : @request_array healthy at_vocabulary_size = Ret at_size_input)
    by reflexivity.
  split; [exact Hreq|split].
  - rewrite (@run_eq healthy), Hreq. cbv zeta.
    change (@model healthy ready) with (Some untrained).
    cbn [get_inputs healthy service deployed name].
    destruct (and_then _ _); cbn [snd effects];
      apply in_or_app; right; left; reflexivity.
  - apply (first_token_refused at_vocabulary_size 10000 (repeat 0%Z 99));
      [discriminate|exact Hreq].
Qed.

(** C10, at work: a negative, a fractional and an out-of-vocabulary value
    are handed to the session as they were converted. *)
Lemma request_reaches_model_unchecked_witness :
  @request_array healthy no_tokens = Ret no_tokens_input /\
  effects (snd (@run healthy no_tokens ready))
  = (effects ready
     ++ [@received healthy no_tokens;
         @Inference healthy untrained [(Onnx.input_name, no_tokens_input)]])%list.
Proof.
  assert (Hreq : @request_array healthy no_tokens = Ret no_tokens_input)
    by reflexivity.
  split; [exact Hreq|].
  apply (@request_reaches_model_unchecked healthy ready untrained
           (mkNodeArg Onnx.input_name) [] no_tokens no_tokens_input);
    [reflexivity|reflexivity|exact Hreq].
Defined.

End ReferenceExamples.

(** * Properties of the notebook's data preparation and deployment *)

Section Axis0Properties.
Import Axis0 Notebook.
Context {A : Type}.

(** Taking more than there is takes everything. *)
Lemma firstn_clipped (k : nat) (l : list A) :
  firstn (Nat.min k (length l)) l = firstn k l.
Proof.
  destruct (Nat.le_ge_cases k (length l)) as [H|H].
  - rewrite Nat.min_l by exact H. reflexivity.
  - rewrite Nat.min_r by exact H. rewrite !firstn_all2; [reflexivity|exact H|lia].
Qed.

(** [a[:k]], [a[k:]] and [a[a:b]] for bounds that are not negative. *)
Lemma slice_to (k : Z) (l : list A) :
  (0 <= k)%Z -> slice None (Some k) l = firstn (Z.to_nat k) l.
Proof.
  intros Hk. unfold slice, clip. cbv zeta.
  replace (k <? 0)%Z with false by (symmetry; apply Z.ltb_ge; exact Hk).
  rewrite Z.sub_0_r. cbn [Z.to_nat skipn].
  rewrite Z2Nat.inj_min, Nat2Z.id. apply firstn_clipped.
Qed.

Lemma slice_from (k : Z) (l : list A) :
  (0 <= k)%Z -> slice (Some k) None l = skipn (Z.to_nat k) l.
Proof.
  intros Hk. unfold slice, clip. cbv zeta.
  replace (k <? 0)%Z with false by (symmetry; apply Z.ltb_ge; exact Hk).
  rewrite Z2Nat.inj_sub by lia. rewrite Z2Nat.inj_min, !Nat2Z.id.
  destruct (Nat.le_ge_cases (Z.to_nat k) (length l)) as [H|H].
  - rewrite Nat.min_l by exact H. apply firstn_all2. rewrite length_skipn. lia.
  - rewrite Nat.min_r by exact H. rewrite Nat.sub_diag. cbn [firstn].
    symmetry. apply skipn_all2. exact H.
Qed.

Lemma slice_between (a b : Z) (l : list A) :
  (0 <= a <= b)%Z ->
  slice (Some a) (Some b) l = firstn (Z.to_nat b - Z.to_nat a) (skipn (Z.to_nat a) l).
Proof.
  intros [Ha Hab]. unfold slice, clip. cbv zeta.
  replace (a <? 0)%Z with false by (symmetry; apply Z.ltb_ge; exact Ha).
  replace (b <? 0)%Z with false by (symmetry; apply Z.ltb_ge; lia).
  rewrite Z2Nat.inj_sub by lia. rewrite !Z2Nat.inj_min, !Nat2Z.id.
  assert (Hab' : Z.to_nat a <= Z.to_nat b) by lia.
  destruct (Nat.le_ge_cases (Z.to_nat a) (length l)) as [H|H].
  - rewrite (Nat.min_l (Z.to_nat a)) by exact H.
    rewrite <- (firstn_clipped (Z.to_nat b - Z.to_nat a)).
    rewrite length_skipn. f_equal. lia.
  - rewrite (Nat.min_r (Z.to_nat a)) by exact H.
    rewrite (skipn_all2 l H). rewrite (skipn_all2 l) by lia.
    rewrite !firstn_nil. reflexivity.
Qed.

(** Cutting an axis at two points loses and repeats nothing. *)
Lemma three_slices (a b : Z) (l : list A) :
  (0 <= a <= b)%Z ->
  (slice None (Some a) l ++ slice (Some a) (Some b) l ++ slice (Some b) None l = l)%list.
Proof.
  intros Hab. rewrite slice_to, slice_between, slice_from by lia.
  rewrite <- (firstn_skipn (Z.to_nat a) l) at 4. f_equal.
  rewrite <- (firstn_skipn (Z.to_nat b - Z.to_nat a) (skipn (Z.to_nat a) l)) at 2.
  f_equal. rewrite skipn_skipn. f_equal. lia.
Qed.

End Axis0Properties.

Section Cell8Properties.
Import Axis0 Notebook.
Context {A B : Type}.

Lemma combine_skipn (k : nat) (l : list A) (l' : list B) :
  skipn k (combine l l') = combine (skipn k l) (skipn k l').
Proof.
  revert l l'. induction k as [|k IH]; intros l l'; [reflexivity|].
  destruct l as [|x l]; [reflexivity|].
  destruct l' as [|y l']; [cbn [skipn combine]; destruct (skipn k l); reflexivity|].
  cbn [skipn combine]. apply IH.
Qed.

(** Slicing rows paired with their labels is slicing both alike. *)
Lemma slice_combine (start stop : option Z) (l : list A) (l' : list B) :
  length l' = length l ->
  slice start stop (combine l l') = combine (slice start stop l) (slice start stop l').
Proof.
  intros Hlen. unfold slice. rewrite length_combine, Hlen, Nat.min_id.
  cbv zeta. rewrite combine_skipn, combine_firstn. reflexivity.
Qed.

(** X2.  The three sets of cell 8 partition the data: training,
    validation and test rows, in this order, are the rows of [data], none
    lost and none twice; the same for the labels; and when there is a label
    for every row, each row keeps its label when it lands in a set. *)
Theorem split_is_a_partition (data : list A) (labels : list B) :
  let s := split data labels in
  (x_train s ++ x_val s ++ x_test s = data)%list /\
  (y_train s ++ y_val s ++ y_test s = labels)%list /\
  (length labels = length data ->
   (combine (x_train s) (y_train s) ++ combine (x_val s) (y_val s)
    ++ combine (x_test s) (y_test s) = combine data labels)%list).
Proof.
  cbv zeta. unfold split. cbn [x_train y_train x_val y_val x_test y_test].
  assert (H : (0 <= training_samples <= training_samples + validation_samples)%Z)
    by (unfold training_samples, validation_samples; lia).
  split; [apply three_slices; exact H|].
  split; [apply three_slices; exact H|].
  intros Hlen. rewrite <- !slice_combine by exact Hlen.
  apply three_slices. exact H.
Qed.

(** X3.  The sizes of the three sets of cell 8 for [n] rows: the training
    set takes the first 90000 (all, if there are fewer), the validation set
    the next 5000 that exist, the test set the rest.  With at most 90000
    rows the validation and test sets are empty, and the cell raises
    nothing. *)
Theorem split_sizes (data : list A) (labels : list B) :
  let s := split data labels in
  let n := Z.of_nat (length data) in
  Z.of_nat (length (x_train s)) = Z.min n 90000 /\
  Z.of_nat (length (x_val s)) = Z.max 0 (Z.min n 95000 - 90000) /\
  Z.of_nat (length (x_test s)) = Z.max 0 (n - 95000) /\
  ((n <= 90000)%Z -> x_val s = [] /\ x_test s = []).
Proof.
  cbv zeta. unfold split. cbn [x_train y_train x_val y_val x_test y_test].
  unfold training_samples, validation_samples.
  rewrite slice_to, slice_between, slice_from by lia.
  rewrite !length_firstn, !length_skipn.
  repeat split; try lia.
  - apply length_zero_iff_nil. rewrite length_firstn, length_skipn. lia.
  - apply length_zero_iff_nil. rewrite length_skipn. lia.
Qed.

End Cell8Properties.

Section TakeProperties.
Import Axis0 Notebook.
Context {A : Type}.

(** Indexing inside and outside the axis. *)
Lemma getitem_in_range (i : nat) (a : list A) (x : A) :
  nth_error a i = Some x -> getitem (Z.of_nat i) a = Ret x.
Proof.
  intros Hx. assert (Hi : i < length a) by (apply nth_error_Some; congruence).
  unfold getitem. cbv zeta.
  replace (Z.of_nat i <? - Z.of_nat (length a))%Z with false
    by (symmetry; apply Z.ltb_ge; lia).
  replace (Z.of_nat (length a) <=? Z.of_nat i)%Z with false
    by (symmetry; apply Z.leb_gt; lia).
  replace (Z.of_nat i <? 0)%Z with false by (symmetry; apply Z.ltb_ge; lia).
  cbn [orb]. rewrite Nat2Z.id, Hx. reflexivity.
Qed.

Lemma getitem_beyond (i : Z) (a : list A) :
  (Z.of_nat (length a) <= i)%Z ->
  getitem i a = Raise (out_of_bounds i (Z.of_nat (length a))).
Proof.
  intros Hi. unfold getitem. cbv zeta.
  replace (Z.of_nat (length a) <=? i)%Z with true by (symmetry; apply Z.leb_le; exact Hi).
  rewrite orb_true_r. reflexivity.
Qed.

Lemma skipn_nth_error (k : nat) (a : list A) (x : A) :
  nth_error a k = Some x -> skipn k a = x :: skipn (S k) a.
Proof.
  revert a. induction k as [|k IH]; intros [|y a] Hx; try discriminate.
  - injection Hx as ->. reflexivity.
  - cbn [nth_error] in Hx. rewrite !skipn_cons. apply IH. exact Hx.
Qed.

(** Indexing with consecutive indices is a slice. *)
Lemma take_range (k m : nat) (a : list A) :
  k + m <= length a ->
  take (map Z.of_nat (seq k m)) a = Ret (firstn m (skipn k a)).
Proof.
  unfold take. revert k. induction m as [|m IH]; intros k Hk; [reflexivity|].
  cbn [seq map mapM].
  fold (mapM (fun i => getitem i a) (map Z.of_nat (seq (S k) m))).
  destruct (nth_error a k) as [x|] eqn:Hx;
    [|apply nth_error_None in Hx; lia].
  rewrite (getitem_in_range k a x Hx). cbn [and_then].
  rewrite IH by lia. cbn [and_then].
  rewrite (skipn_nth_error k a x Hx). reflexivity.
Qed.

(** Indexing with all the indices of the axis, in order, is the array. *)
Lemma take_arange (a : list A) : take (arange (length a)) a = Ret a.
Proof.
  unfold arange. rewrite take_range by lia.
  cbn [skipn]. rewrite firstn_all. reflexivity.
Qed.

(** Mapping over a permutation of a list succeeds when mapping over the
    list does, and permutes the results. *)
Lemma mapM_Permutation {X Y : Type} (f : X -> outcome Y) (l l' : list X) :
  Permutation l l' ->
  forall ys, mapM f l = Ret ys ->
  exists ys', mapM f l' = Ret ys' /\ Permutation ys ys'.
Proof.
  induction 1 as [|x l l' _ IH|x y l|l l' l'' _ IH1 _ IH2]; intros ys Hys.
  - exists ys. split; [exact Hys|apply Permutation_refl].
  - cbn [mapM] in *. fold (mapM f l) in Hys. fold (mapM f l').
    destruct (f x) as [fx|e]; cbn [and_then] in *; [|discriminate].
    destruct (mapM f l) as [zs|e]; cbn [and_then] in *; [|discriminate].
    injection Hys as <-. destruct (IH zs eq_refl) as [zs' [-> Hp]].
    exists (fx :: zs'). split; [reflexivity|apply perm_skip; exact Hp].
  - cbn [mapM] in *. fold (mapM f l) in *.
    destruct (f y) as [fy|e]; cbn [and_then] in *; [|discriminate].
    destruct (f x) as [fx|e]; cbn [and_then] in *; [|discriminate].
    destruct (mapM f l) as [zs|e]; cbn [and_then] in *; [|discriminate].
    injection Hys as <-. exists (fx :: fy :: zs).
    split; [reflexivity|apply perm_swap].
  - destruct (IH1 ys Hys) as [ys' [Hys' Hp1]].
    destruct (IH2 ys' Hys') as [ys'' [Hys'' Hp2]].
    exists ys''. split; [exact Hys''|apply (Permutation_trans Hp1 Hp2)].
Qed.

End TakeProperties.

Section MapProperties.
Import Axis0 Notebook.
Context {A B : Type}.

(** Indexing commutes with an elementwise cast. *)
Lemma getitem_map (f : A -> B) (i : Z) (a : list A) :
  getitem i (map f a) = and_then (getitem i a) (fun x => Ret (f x)).
Proof.
  unfold getitem. cbv zeta. rewrite length_map.
  destruct ((i <? - Z.of_nat (length a))%Z || (Z.of_nat (length a) <=? i)%Z);
    [reflexivity|].
  rewrite nth_error_map. destruct (nth_error a _); reflexivity.
Qed.

Lemma take_map (f : A -> B) (indices : list Z) (a : list A) :
  take indices (map f a)
  = and_then (take indices a) (fun rows => Ret (map f rows)).
Proof.
  unfold take. induction indices as [|i indices IH]; [reflexivity|].
  cbn [mapM]. fold (mapM (fun i => getitem i (map f a)) indices).
  fold (mapM (fun i => getitem i a) indices).
  rewrite getitem_map, IH.
  destruct (getitem i a); cbn [and_then]; [|reflexivity].
  destruct (mapM (fun i => getitem i a) indices); reflexivity.
Qed.

Lemma map_fst_combine (l : list A) (l' : list B) :
  length l' = length l -> map fst (combine l l') = l.
Proof.
  revert l'. induction l as [|x l IH]; intros [|y l'] Hlen; try discriminate;
    [reflexivity|].
  cbn [combine map fst]. rewrite IH; [reflexivity|]. injection Hlen as ->. reflexivity.
Qed.

Lemma map_snd_combine (l : list A) (l' : list B) :
  length l' = length l -> map snd (combine l l') = l'.
Proof.
  revert l'. induction l as [|x l IH]; intros [|y l'] Hlen; try discriminate;
    [reflexivity|].
  cbn [combine map snd]. rewrite IH; [reflexivity|]. injection Hlen as ->. reflexivity.
Qed.

Lemma combine_fst_snd (ps : list (A * B)) : combine (map fst ps) (map snd ps) = ps.
Proof.
  induction ps as [|[x y] ps IH]; [reflexivity|].
  cbn [map combine fst snd]. rewrite IH. reflexivity.
Qed.

End MapProperties.

Section ShuffleProperties.
Import Axis0 Notebook.
Context {A B : Type}.

(** X1.  The shuffle of cell 8 keeps every sample with its label.  When
    there is a label for every row and [np.random.shuffle] leaves the
    indices a permutation of themselves, indexing [data] and [labels] with
    the shuffled indices raises nothing, and the rows paired with their
    labels are a permutation of the pairs before: nothing is lost, nothing
    doubled, no label moved to another row. *)
Theorem shuffle_keeps_samples_with_labels
  (shuffle : list Z -> list Z) (data : list A) (labels : list B) :
  length labels = length data ->
  Permutation (shuffle (arange (length data))) (arange (length data)) ->
  exists data' labels',
    shuffled shuffle data labels = Ret (data', labels') /\
    length labels' = length data' /\
    Permutation (combine data' labels') (combine data labels).
Proof.
  intros Hlen Hperm.
  set (pairs := combine data labels).
  assert (Hn : length pairs = length data).
  { unfold pairs. rewrite length_combine, Hlen. apply Nat.min_id. }
  destruct (mapM_Permutation (fun i => getitem i pairs) _ _
              (Permutation_sym Hperm) pairs) as [ps [Hps Hp]].
  { rewrite <- Hn. apply take_arange. }
  fold (take (shuffle (arange (length data))) pairs) in Hps.
  pose proof (take_map fst (shuffle (arange (length data))) pairs) as Hd.
  pose proof (take_map snd (shuffle (arange (length data))) pairs) as Hl.
  rewrite Hps in Hd, Hl. cbn [and_then] in Hd, Hl.
  unfold pairs in Hd at 1. unfold pairs in Hl at 1.
  rewrite (map_fst_combine data labels Hlen) in Hd.
  rewrite (map_snd_combine data labels Hlen) in Hl.
  exists (map fst ps), (map snd ps).
  unfold shuffled. cbv zeta. rewrite Hd. cbn [and_then]. rewrite Hl.
  split; [reflexivity|]. split; [rewrite !length_map; reflexivity|].
  rewrite combine_fst_snd. apply Permutation_sym. exact Hp.
Qed.

End ShuffleProperties.

Section Cell8AsAWhole.
Import Axis0 Notebook.
Context {A B : Type}.

(** X12.  Cell 8 as a whole.  When there is a label for every row and the
    shuffle permutes the indices, the cell raises nothing, each of the
    three sets has as many labels as rows, and the rows of the three sets
    paired with their labels are a permutation of the rows of [data] paired
    with theirs: every sample lands in exactly one set, with its own
    label. *)
Theorem shuffle_and_split_keeps_every_pair
  (shuffle : list Z -> list Z) (data : list A) (labels : list B) :
  length labels = length data ->
  Permutation (shuffle (arange (length data))) (arange (length data)) ->
  exists s,
    shuffle_and_split shuffle data labels = Ret s /\
    length (x_train s) = length (y_train s) /\
    length (x_val s) = length (y_val s) /\
    length (x_test s) = length (y_test s) /\
    Permutation
      (combine (x_train s) (y_train s) ++ combine (x_val s) (y_val s)
       ++ combine (x_test s) (y_test s))
      (combine data labels).
Proof.
  intros Hlen Hperm.
  set (pairs := combine data labels).
  assert (Hn : length pairs = length data).
  { unfold pairs. rewrite length_combine, Hlen. apply Nat.min_id. }
  destruct (mapM_Permutation (fun i => getitem i pairs) _ _
              (Permutation_sym Hperm) pairs) as [ps [Hps Hp]].
  { rewrite <- Hn. apply take_arange. }
  fold (take (shuffle (arange (length data))) pairs) in Hps.
  pose proof (take_map fst (shuffle (arange (length data))) pairs) as Hd.
  pose proof (take_map snd (shuffle (arange (length data))) pairs) as Hl.
  rewrite Hps in Hd, Hl. cbn [and_then] in Hd, Hl.
  unfold pairs in Hd at 1. unfold pairs in Hl at 1.
  rewrite (map_fst_combine data labels Hlen) in Hd.
  rewrite (map_snd_combine data labels Hlen) in Hl.
  exists (split (map fst ps) (map snd ps)).
  unfold shuffle_and_split, shuffled. cbv zeta. rewrite Hd. cbn [and_then].
  rewrite Hl. cbn [and_then fst snd].
  split; [reflexivity|].
  assert (Hlen' : length (map snd ps) = length (map fst ps))
    by (rewrite !length_map; reflexivity).
  assert (Hslice : forall start stop,
            length (slice start stop (map fst ps))
            = length (slice start stop (map snd ps))).
  { intros start stop. unfold slice. rewrite Hlen'.
    rewrite !length_firstn, !length_skipn, Hlen'. reflexivity. }
  unfold split. cbn [x_train y_train x_val y_val x_test y_test].
  repeat (split; [apply Hslice|]).
  rewrite <- !slice_combine by exact Hlen'.
  rewrite three_slices by (unfold training_samples, validation_samples; lia).
  rewrite combine_fst_snd. apply Permutation_sym. exact Hp.
Qed.

End Cell8AsAWhole.

Section TestSampleProperties.
Import Axis0 Notebook.
Context {A B : Type}.

(** Indexing a tail of the axis. *)
Lemma getitem_skipn (k i : nat) (a : list A) :
  i < length a - k ->
  getitem (Z.of_nat i) (skipn k a) = getitem (Z.of_nat (k + i)) a.
Proof.
  intros Hi.
  destruct (nth_error a (k + i)) as [x|] eqn:Hx;
    [|apply nth_error_None in Hx; lia].
  rewrite (getitem_in_range (k + i) a x Hx).
  apply getitem_in_range. rewrite nth_error_skipn. exact Hx.
Qed.

(** X4.  The test sample of cells 18 and 34, [x_test[1502]], is row 96502
    of the shuffled data when there are more than 96502 rows; with fewer
    rows the index is outside the test set, whose size is what is left
    after 95000 rows, and the expression raises [IndexError]. *)
Theorem test_sample_is_row_96502 (data : list A) (labels : list B) :
  let n := Z.of_nat (length data) in
  getitem 1502 (x_test (split data labels))
  = if (96502 <? n)%Z then getitem 96502 data
    else Raise (out_of_bounds 1502 (Z.max 0 (n - 95000))).
Proof.
  cbv zeta. unfold split. cbn [x_test].
  unfold training_samples, validation_samples.
  rewrite slice_from by lia.
  destruct (96502 <? Z.of_nat (length data))%Z eqn:Hn.
  - apply Z.ltb_lt in Hn.
    replace 1502%Z with (Z.of_nat 1502) by lia.
    rewrite getitem_skipn by lia.
    f_equal; lia.
  - apply Z.ltb_ge in Hn. rewrite getitem_beyond by (rewrite length_skipn; lia).
    f_equal. f_equal. rewrite length_skipn. lia.
Qed.

End TestSampleProperties.

Section CastProperties.
Import Axis0 Notebook.
Context {I F : Type}.
Variable cast : I -> F.

(** X5.  Cell 18 casts the row it took and cell 34 takes the row of the
    cast array: both build the same array or raise the same exception.  They
    build an array exactly when the test set has a row 1502 and that row has
    100 values: then it is that row, cast, in shape (1, 100). *)
Theorem test_sample_cells_agree (x_test : list (list I)) :
  x_test_float cast x_test = test_sample cast x_test /\
  (forall a, test_sample cast x_test = Ret a <->
     exists row, getitem 1502 x_test = Ret row /\ length row = 100 /\
                 a = mkArray [1; 100] (map cast row)).
Proof.
  assert (Hagree : x_test_float cast x_test = test_sample cast x_test).
  { unfold x_test_float, test_sample. rewrite getitem_map.
    destruct (getitem 1502 x_test); reflexivity. }
  split; [exact Hagree|].
  intros a. rewrite <- Hagree. unfold x_test_float, reshape_1_100.
  destruct (getitem 1502 x_test) as [row|e]; cbn [and_then].
  - rewrite length_map. destruct (Nat.eqb (length row) 100) eqn:Hlen.
    + apply Nat.eqb_eq in Hlen. split.
      * intros [= <-]. exists row. auto.
      * intros [row' [[= <-] [_ ->]]]. reflexivity.
    + apply Nat.eqb_neq in Hlen. split; [discriminate|].
      intros [row' [[= <-] [Hlen' _]]]. contradiction.
  - split; [discriminate|]. intros [row [Hrow _]]. discriminate.
Qed.

End CastProperties.

Section Cell32Properties.
Import Axis0 Notebook.
Variable Webservice : Type.
Variable service_name : Webservice -> string.
Variable repr : Webservice -> string.
Variable deploy_from_image : string -> outcome Webservice.
Variable wait_for_deployment : Webservice -> outcome unit.

Let named (service : Webservice) : bool :=
  String.eqb (service_name service) webservice_name.

(** The loop of cell 32 over a list that continues. *)
Lemma find_existing_app (before after : list Webservice) :
  find_existing Webservice service_name (before ++ after)
  = fold_left
      (fun state service =>
         if named service
         then (Some service, (snd state ++ [Printed Webservice "Found existing webservice!"])%list)
         else state)
      after (find_existing Webservice service_name before).
Proof. unfold find_existing. apply fold_left_app. Qed.

(** After the loop [webservice] is the last listed service of the name,
    and one line was printed for each service of the name. *)
Lemma find_existing_spec (listed : list Webservice) :
  fst (find_existing Webservice service_name listed)
  = find named (rev listed) /\
  snd (find_existing Webservice service_name listed)
  = repeat (Printed Webservice "Found existing webservice!")
           (length (filter named listed)).
Proof.
  induction listed as [|service listed IH] using rev_ind; [split; reflexivity|].
  rewrite find_existing_app. cbn [fold_left].
  rewrite rev_app_distr, filter_app, length_app. cbn [rev app find filter].
  destruct IH as [IHf IHs]. fold (named service).
  destruct (named service); cbn [fst snd length].
  - split; [reflexivity|]. rewrite IHs.
    rewrite Nat.add_1_r. rewrite <- repeat_cons. reflexivity.
  - split; [exact IHf|]. rewrite IHs, Nat.add_0_r. reflexivity.
Qed.

Lemma named_iff (service : Webservice) :
  named service = true <-> service_name service = webservice_name.
Proof. apply String.eqb_eq. Qed.

Lemma find_last_named (before after : list Webservice) (service : Webservice) :
  service_name service = webservice_name ->
  (forall s, In s after -> service_name s <> webservice_name) ->
  find named (rev (before ++ service :: after)) = Some service.
Proof.
  intros Hname Hafter. rewrite rev_app_distr. cbn [rev]. rewrite <- app_assoc.
  cbn [app].
  assert (Hnone : forall l, (forall s, In s l -> named s = false) ->
            forall tail, find named (l ++ tail) = find named tail).
  { induction l as [|s l IH]; intros Hl tail; [reflexivity|].
    cbn [app find]. rewrite (Hl s (or_introl eq_refl)).
    apply IH. intros s' Hs'. apply Hl. right. exact Hs'. }
  rewrite Hnone.
  - cbn [find]. apply named_iff in Hname. rewrite Hname. reflexivity.
  - intros s Hs. apply in_rev in Hs. specialize (Hafter s Hs).
    destruct (named s) eqn:Hn; [|reflexivity].
    apply named_iff in Hn. contradiction.
Qed.

(** X6.  Cell 32 starts a deployment exactly when no listed service has
    the name [complianceservice-srv].  When some have, it deploys nothing
    and ends with the last of them in the list: the loop has no [break]. *)
Theorem deploys_only_when_no_service_has_the_name (listed : list Webservice) :
  let result :=
    find_or_deploy Webservice service_name repr deploy_from_image
      wait_for_deployment listed in
  (In (DeployStarted Webservice webservice_name) (snd result) <->
   forall s, In s listed -> service_name s <> webservice_name) /\
  (forall before service after,
     listed = (before ++ service :: after)%list ->
     service_name service = webservice_name ->
     (forall s, In s after -> service_name s <> webservice_name) ->
     fst result = Ret service /\
     ~ In (DeployStarted Webservice webservice_name) (snd result)).
Proof.
  cbv zeta. unfold find_or_deploy.
  destruct (find_existing_spec listed) as [Hfound Hlog].
  destruct (find_existing Webservice service_name listed) as [found done].
  cbn [fst snd] in Hfound, Hlog. subst found done.
  set (lines := repeat (Printed Webservice "Found existing webservice!") _).
  assert (Hlines : ~ In (DeployStarted Webservice webservice_name) lines).
  { intros Hin. apply repeat_spec in Hin. discriminate. }
  destruct (find named (rev listed)) as [service|] eqn:Hfind.
  - assert (Hno : ~ In (DeployStarted Webservice webservice_name)
                    (lines ++ [Printed Webservice
                                 (print_line [service_name service; repr service])])).
    { intros H. apply in_app_or in H. destruct H as [H|[H|[]]];
        [contradiction|discriminate]. }
    cbn [fst snd]. split.
    + split; [intros H; contradiction|].
      intros Hall. exfalso.
      apply find_some in Hfind. destruct Hfind as [Hin Hnamed].
      apply in_rev in Hin. apply named_iff in Hnamed.
      apply (Hall service Hin Hnamed).
    + intros before service' after -> Hname Hafter.
      rewrite (find_last_named before after service' Hname Hafter) in Hfind.
      injection Hfind as ->. split; [reflexivity|exact Hno].
  - assert (Hall : forall s, In s listed -> service_name s <> webservice_name).
    { intros s Hin Hname. apply in_rev in Hin.
      apply (find_none _ _ Hfind) in Hin. apply named_iff in Hname.
      fold (named s) in Hin. congruence. }
    split.
    + split; [intros _; exact Hall|]. intros _.
      destruct (deploy_from_image webservice_name) as [service|e];
        [destruct (wait_for_deployment service)|]; cbn [snd];
        rewrite ?in_app_iff; cbn [In]; auto 6.
    + intros before service after -> Hname _. exfalso.
      apply (Hall service); [apply in_or_app; right; left; reflexivity|exact Hname].
Qed.

End Cell32Properties.

(** * More about the service *)

Section LogProperties.
Context {RT : Runtime}.

(** One call of [run] appends its effects. *)
Lemma run_effects_eq (raw_data : string) (w : world) :
  effects (snd (run raw_data w))
  = (effects w ++ run_effects (model w) raw_data)%list.
Proof.
  rewrite run_eq. cbv zeta. unfold run_effects.
  destruct (request_array raw_data) as [input_data|e]; [|reflexivity].
  destruct (model w) as [m|]; [|reflexivity].
  destruct (get_inputs m) as [|input0 others]; [reflexivity|].
  destruct (and_then _ _); cbn [snd effects]; rewrite <- app_assoc; reflexivity.
Qed.

(** X7.  What a sequence of [run] calls does to the outside: the effects
    are those before, followed by those of each request in order.  Each
    request prints its line once and evaluates the graph at most once, on
    its own array; it evaluates nothing when the request does not convert
    or no model is bound; and no call changes what an earlier call
    recorded. *)
Theorem requests_leave_their_trace (raws : list string) (w : world) :
  effects (serve_all w (map Run raws))
  = (effects w ++ flat_map (run_effects (model w)) raws)%list.
Proof.
  revert w. induction raws as [|raw raws IH]; intros w.
  - cbn [map serve_all fold_left flat_map]. rewrite app_nil_r. reflexivity.
  - cbn [map serve_all fold_left flat_map].
    fold (serve_all (serve w (Run raw)) (map Run raws)).
    rewrite IH. cbn [serve]. rewrite run_keeps_model, run_effects_eq.
    rewrite <- app_assoc. reflexivity.
Qed.

End LogProperties.

Section GraphScores.
Import Keras Onnx.
Local Open Scope R_scope.

(** A successful map succeeded on every element. *)
Lemma mapM_Ret {X Y : Type} (f : X -> outcome Y) (l : list X) (ys : list Y) :
  mapM f l = Ret ys -> Forall2 (fun x y => f x = Ret y) l ys.
Proof.
  revert ys. induction l as [|x l IH]; intros ys H.
  - injection H as <-. constructor.
  - cbn [mapM] in H. fold (mapM f l) in H.
    destruct (f x) as [y|e] eqn:Hy; cbn [and_then] in H; [|discriminate].
    destruct (mapM f l) as [zs|e]; cbn [and_then] in H; [|discriminate].
    injection H as <-. constructor; [exact Hy|apply IH; reflexivity].
Qed.

(** A row the graph scores gets one score, a sigmoid. *)
Lemma score_row_Ret (w : weights) (row : list R) (y : list R) :
  score_row w row = Ret y -> exists z, y = [sigmoid z].
Proof.
  unfold score_row. destruct (mapM _ row) as [tokens|e]; cbn [and_then]; [|discriminate].
  intros [= <-]. apply predict_is_sigmoid.
Qed.

(** So do all the rows of a batch. *)
Lemma scores_are_sigmoids (w : weights) (samples : list (list R)) (ys : list (list R)) :
  mapM (score_row w) samples = Ret ys ->
  exists zs, concat ys = map sigmoid zs /\ length zs = length samples.
Proof.
  intros H. apply mapM_Ret in H.
  induction H as [|row y samples ys Hy _ [zs [IH Hlen]]].
  - exists []. split; reflexivity.
  - destruct (score_row_Ret w row y Hy) as [z ->].
    exists (z :: zs). cbn [concat app map length]. rewrite IH, Hlen. split; reflexivity.
Qed.

End GraphScores.

Section DeployedScores.
Import Keras.
Local Open Scope R_scope.
Variables (object array : Type).
Variable loads : string -> outcome object.
Variable to_array : object -> outcome array.
Variable to_float32 : array -> outcome (ndarray R).
Variable registry : string -> outcome string.
Variable loader : string -> outcome weights.

Let service : Runtime :=
  deployed object array loads to_array to_float32 registry loader.

(** What [run] returns for a converted request on a Ready endpoint of the
    deployed service. *)
Lemma deployed_run (w : @world service) (m : weights) (raw_data : string)
  (input_data : ndarray R) :
  model w = Some m ->
  @request_array service raw_data = Ret input_data ->
  fst (@run service raw_data w)
  = match and_then (Onnx.run_graph m input_data)
            (fun y => @first_score service [y]) with
    | Ret x => Ret (@PyFloat service x)
    | Raise e => Ret (@PyStr service (str e))
    end.
Proof.
  intros Hm Hreq. rewrite (@run_eq service), Hreq, Hm. cbv zeta.
  cbn [get_inputs service deployed name session_run].
  unfold Onnx.run_session. rewrite String.eqb_refl.
  destruct (Onnx.run_graph m input_data) as [y|e]; cbn [and_then]; [|reflexivity].
  destruct (@first_score service [y]); reflexivity.
Qed.

(** The first score of what the graph returns is the sigmoid the network
    computes for the first row. *)
Lemma graph_first_score (m : weights) (input_data : ndarray R) (x : R) :
  and_then (Onnx.run_graph m input_data) (fun y => @first_score service [y]) = Ret x ->
  exists n, shape input_data = [S n; maxlen] /\
    Onnx.score_row m (firstn maxlen (data input_data)) = Ret [x] /\
    exists z, x = sigmoid z.
Proof.
  unfold Onnx.run_graph.
  destruct (shape input_data) as [|n [|width [|d ds]]]; try discriminate.
  destruct (Nat.eqb width maxlen) eqn:Hwidth; [|discriminate].
  apply Nat.eqb_eq in Hwidth. subst width.
  destruct n as [|n].
  - cbn [Onnx.rows mapM and_then concat]. discriminate.
  - cbn [Onnx.rows mapM].
    fold (mapM (Onnx.score_row m) (Onnx.rows n maxlen (skipn maxlen (data input_data)))).
    destruct (Onnx.score_row m (firstn maxlen (data input_data))) as [y|e] eqn:Hy;
      cbn [and_then]; [|discriminate].
    destruct (mapM _ _) as [ys|e]; cbn [and_then]; [|discriminate].
    destruct (score_row_Ret m _ y Hy) as [z ->].
    unfold first_score, getitem0. cbn [and_then list_getitem0 shape data concat app].
    cbn. intros [= <-]. exists n. split; [reflexivity|].
    split; [reflexivity|]. exists z. reflexivity.
Qed.

(** X8.  Whatever the request, the state and the weights: when [run] of the
    deployed service returns a float, that float is at least 0 and at most
    1.  Every other outcome is an error string. *)
Theorem returned_float_is_a_probability
  (w : @world service) (raw_data : string) (x : R) :
  fst (@run service raw_data w) = Ret (@PyFloat service x) ->
  0 <= x <= 1.
Proof.
  intros Hrun.
  destruct (@request_array service raw_data) as [input_data|e] eqn:Hreq;
    [|rewrite (@run_eq service), Hreq in Hrun; discriminate].
  destruct (model w) as [m|] eqn:Hm;
    [|rewrite (@run_eq service), Hreq, Hm in Hrun; discriminate].
  rewrite (deployed_run w m raw_data input_data Hm Hreq) in Hrun.
  destruct (and_then _ _) as [x'|e] eqn:Hscore; [|discriminate].
  injection Hrun as ->.
  destruct (graph_first_score m input_data x Hscore) as [n [_ [_ [z ->]]]].
  pose proof (sigmoid_bounds z). lra.
Qed.


End DeployedScores.

(** * A request as cell 34 sends it *)

Section DecoderProperties.
Import Json.

(** How [json.dumps] writes a float with the integral value [t], and what
    the decoder reads it as. *)
Local Abbreviation literal := (fun t : Z => (decimal t ++ ".0")%string).
Local Abbreviation number_of := (fun t : Z => Number (Float (10 * t) (-1))).

(** The characters of two strings one after the other. *)
Lemma chars_app (a b : string) :
  list_ascii_of_string (a ++ b)
  = (list_ascii_of_string a ++ list_ascii_of_string b)%list.
Proof.
  induction a as [|c a IH]; [reflexivity|].
  cbn [append list_ascii_of_string app]. rewrite IH. reflexivity.
Qed.

(** The digits of a decimal numeral are read back as they were written,
    up to the first character that is no digit. *)
Lemma digits_of_uint (d : Decimal.uint) (c : ascii) (rest : list ascii) :
  digit_of c = None ->
  exists ds,
    digits (list_ascii_of_string (NilEmpty.string_of_uint d) ++ c :: rest)%list
    = (ds, c :: rest) /\
    (forall acc : positive,
       fold_left (fun acc d => 10 * acc + d)%Z ds (Z.pos acc)
       = Z.pos (Pos.of_uint_acc d acc)) /\
    fold_left (fun acc d => 10 * acc + d)%Z ds 0%Z = Z.of_N (Pos.of_uint d).
Proof.
  intros Hc.
  induction d as [|d [ds [Hds [Hacc Hzero]]]|d [ds [Hds [Hacc Hzero]]]
                  |d [ds [Hds [Hacc Hzero]]]|d [ds [Hds [Hacc Hzero]]]
                  |d [ds [Hds [Hacc Hzero]]]|d [ds [Hds [Hacc Hzero]]]
                  |d [ds [Hds [Hacc Hzero]]]|d [ds [Hds [Hacc Hzero]]]
                  |d [ds [Hds [Hacc Hzero]]]|d [ds [Hds [Hacc Hzero]]]].
  1: { exists []. cbn [NilEmpty.string_of_uint list_ascii_of_string app digits].
       rewrite Hc. repeat split; reflexivity. }
  all: cbn [NilEmpty.string_of_uint list_ascii_of_string app digits];
    match goal with
    | |- context [digit_of ?a] =>
        let v := eval vm_compute in (digit_of a) in
        change (digit_of a) with v
    end;
    cbv iota; rewrite Hds;
    eexists; split; [reflexivity|];
    cbn [fold_left Pos.of_uint_acc Pos.of_uint Z.of_N]; split;
    [intros acc; rewrite <- Hacc; f_equal; lia
    |try exact Hzero; try (rewrite <- Hacc; f_equal; lia)].
Qed.

(** Stripping leading zeros leaves none in front. *)
Lemma nzhead_no_zero (d d' : Decimal.uint) : Decimal.nzhead d <> Decimal.D0 d'.
Proof. induction d; cbn [Decimal.nzhead]; try discriminate. exact IHd. Qed.

(** The numeral of a positive number does not start with a zero. *)
Lemma to_uint_no_leading_zero (p : positive) (d : Decimal.uint) :
  Pos.to_uint p <> Decimal.D0 d.
Proof.
  intros H.
  pose proof (DecimalPos.Unsigned.to_of (Pos.to_uint p)) as Hnorm.
  rewrite DecimalPos.Unsigned.of_to in Hnorm. cbn [N.to_uint] in Hnorm.
  rewrite H in Hnorm. unfold Decimal.unorm in Hnorm. cbn [Decimal.nzhead] in Hnorm.
  destruct (Decimal.nzhead d) eqn:Hd; try discriminate.
  - injection Hnorm as ->. apply (DecimalPos.Unsigned.to_uint_nonzero p). exact H.
  - apply (nzhead_no_zero d _ Hd).
Qed.

(** One more digit: ten times the value, plus the digit. *)
Lemma digits_value_app (ds : list Z) (d : Z) :
  digits_value (ds ++ [d]) = (10 * digits_value ds + d)%Z.
Proof. unfold digits_value. rewrite fold_left_app. reflexivity. Qed.

(** A float with an integral value, written as [json.dumps] writes it and
    followed by a comma or a closing bracket, is read as ten times the
    integer, to be divided by ten. *)
Lemma match_number_literal (t : Z) (c : ascii) (rest : list ascii) :
  c = ","%char \/ c = "]"%char ->
  match_number (list_ascii_of_string (decimal t ++ ".0") ++ c :: rest)%list
  = Some (Float (10 * t) (-1), c :: rest).
Proof.
  intros Hc.
  assert (Hdot : digit_of "." = None) by reflexivity.
  assert (Hfrac : match_frac ("."%char :: "0"%char :: c :: rest)
                  = (Some [0%Z], c :: rest))
    by (destruct Hc as [-> | ->]; reflexivity).
  assert (Hexp : match_exp (c :: rest) = (None, c :: rest))
    by (destruct Hc as [-> | ->]; reflexivity).
  rewrite chars_app, <- app_assoc.
  change (list_ascii_of_string ".0" ++ c :: rest)%list
    with ("."%char :: "0"%char :: c :: rest).
  unfold decimal, match_number.
  destruct t as [|p|p]; cbn [Z.to_int NilZero.string_of_int NilZero.string_of_uint].
  - cbn [list_ascii_of_string app]. change (match_integer _)
      with (Some (false, [0%Z], "."%char :: "0"%char :: c :: rest)).
    cbv iota. rewrite Hfrac, Hexp. reflexivity.
  - pose proof (DecimalPos.Unsigned.to_uint_nonnil p) as Hnil.
    pose proof (to_uint_no_leading_zero p) as Hzero.
    pose proof (DecimalPos.Unsigned.of_to p) as Hvalue.
    destruct (Pos.to_uint p) as [|d|d|d|d|d|d|d|d|d|d];
      [contradiction|exfalso; apply (Hzero d); reflexivity|..].
    all: destruct (digits_of_uint d "." ("0"%char :: c :: rest) Hdot)
           as [ds [Hds [Hacc _]]];
      cbn [NilZero.string_of_uint NilEmpty.string_of_uint list_ascii_of_string app match_integer];
      match goal with
      | |- context [digit_of ?a] =>
          let v := eval vm_compute in (digit_of a) in
          change (digit_of a) with v
      end;
      cbv iota; rewrite Hds; cbv iota; rewrite Hfrac, Hexp; cbv iota beta zeta;
      rewrite digits_value_app; unfold digits_value; cbn [fold_left];
      cbn [Pos.of_uint] in Hvalue; injection Hvalue as Hvalue;
      change (10 * 0 + ?k)%Z with k; rewrite Hacc, Hvalue; cbn [length]; reflexivity.
  - pose proof (DecimalPos.Unsigned.to_uint_nonnil p) as Hnil.
    pose proof (to_uint_no_leading_zero p) as Hzero.
    pose proof (DecimalPos.Unsigned.of_to p) as Hvalue.
    destruct (Pos.to_uint p) as [|d|d|d|d|d|d|d|d|d|d];
      [contradiction|exfalso; apply (Hzero d); reflexivity|..].
    all: destruct (digits_of_uint d "." ("0"%char :: c :: rest) Hdot)
           as [ds [Hds [Hacc _]]];
      cbn [NilZero.string_of_uint NilEmpty.string_of_uint list_ascii_of_string app match_integer];
      match goal with
      | |- context [digit_of ?a] =>
          let v := eval vm_compute in (digit_of a) in
          change (digit_of a) with v
      end;
      cbv iota; rewrite Hds; cbv iota; rewrite Hfrac, Hexp; cbv iota beta zeta;
      rewrite digits_value_app; unfold digits_value; cbn [fold_left];
      cbn [Pos.of_uint] in Hvalue; injection Hvalue as Hvalue;
      change (10 * 0 + ?k)%Z with k; rewrite Hacc, Hvalue; cbn [length]; reflexivity.
Qed.

(** How such a float starts: with a minus sign or a digit. *)
Lemma literal_head (t : Z) :
  exists a tail,
    list_ascii_of_string (decimal t ++ ".0") = a :: tail /\
    In a ["-"; "0"; "1"; "2"; "3"; "4"; "5"; "6"; "7"; "8"; "9"]%char.
Proof.
  unfold decimal.
  destruct t as [|p|p]; cbn [Z.to_int NilZero.string_of_int];
    [|destruct (Pos.to_uint p)..];
    cbn [NilZero.string_of_uint NilEmpty.string_of_uint append list_ascii_of_string];
    eexists; eexists; (split; [reflexivity|]); cbn [In]; auto 12.
Qed.

(** Where a number starts there is no white space to skip, the scanner
    reads a number, and an array that starts there has items. *)
Lemma literal_starts_value (doc : list ascii) (t : Z) (after : list ascii)
  (fuel pos : nat) :
  let s := (list_ascii_of_string (decimal t ++ ".0") ++ after)%list in
  skip_whitespace s pos = (s, pos) /\
  scan_once doc (S fuel) s pos
  = match match_number s with
    | Some (n, rest) => Value (Number n) rest (pos + (length s - length rest))
    | None => StopIteration pos
    end /\
  scan_once doc (S fuel) ("["%char :: s) pos = array_items doc fuel [] s (S pos).
Proof.
  cbv zeta. destruct (literal_head t) as [a [tail [-> Ha]]].
  cbn [In] in Ha.
  repeat (destruct Ha as [<-|Ha]; [repeat split; reflexivity|]).
  contradiction.
Qed.

(** The scanner on such a float. *)
Lemma scan_once_literal (doc : list ascii) (t : Z) (c : ascii) (rest : list ascii)
  (fuel pos : nat) :
  c = ","%char \/ c = "]"%char ->
  exists pos',
    scan_once doc (S fuel)
      (list_ascii_of_string (decimal t ++ ".0") ++ c :: rest)%list pos
    = Value (Number (Float (10 * t) (-1))) (c :: rest) pos'.
Proof.
  intros Hc.
  destruct (literal_starts_value doc t (c :: rest) fuel pos) as [_ [-> _]].
  rewrite (match_number_literal t c rest Hc). eexists. reflexivity.
Qed.

(** One turn of the loop of [JSONArray]. *)
Lemma array_items_eq (doc : list ascii) (fuel : nat) (values : list value)
  (s : list ascii) (pos : nat) :
  array_items doc (S fuel) values s pos
  = match scan_once doc fuel s pos with
    | StopIteration p => Error (JSONDecodeError "Expecting value" doc p)
    | Error e => Error e
    | Value v rest p =>
        let (s1, p1) := skip_whitespace rest p in
        match s1 with
        | "]"%char :: rest1 => Value (Array (rev (v :: values))) rest1 (S p1)
        | ","%char :: rest1 =>
            let (s2, p2) := skip_whitespace rest1 (S p1) in
            array_items doc fuel (v :: values) s2 p2
        | _ => Error (JSONDecodeError "Expecting ',' delimiter" doc p1)
        end
    end.
Proof. reflexivity. Qed.

(** [sep.join] of at least two strings. *)
Lemma concat_cons (sep x y : string) (l : list string) :
  String.concat sep (x :: y :: l) = x ++ sep ++ String.concat sep (y :: l).
Proof. reflexivity. Qed.

(** The same, in characters, for the separator [json.dumps] writes. *)
Lemma chars_concat_cons (x y : string) (l : list string) (rest : list ascii) :
  (list_ascii_of_string (String.concat ", " (x :: y :: l)) ++ rest)%list
  = (list_ascii_of_string x
     ++ ","%char :: " "%char
        :: (list_ascii_of_string (String.concat ", " (y :: l)) ++ rest))%list.
Proof. rewrite concat_cons, !chars_app, <- !app_assoc. reflexivity. Qed.

(** A row that has items starts with its first item. *)
Lemma concat_starts (t : Z) (l : list string) (after : list ascii) :
  exists tail,
    (list_ascii_of_string (String.concat ", " (literal t :: l)) ++ after
     = list_ascii_of_string (literal t) ++ tail)%list.
Proof.
  destruct l as [|y l]; [exists after; reflexivity|].
  rewrite chars_concat_cons. eexists. reflexivity.
Qed.

(** The items of an array of such floats, up to the closing bracket. *)
Lemma array_items_literals (doc rest : list ascii) (row : list Z) :
  forall (t : Z) (values : list value) (fuel pos : nat),
    length row < fuel ->
    exists pos',
      array_items doc (S fuel) values
        (list_ascii_of_string (String.concat ", " (map literal (t :: row)))
         ++ "]"%char :: rest)%list pos
      = Value (Array (rev values ++ map number_of (t :: row))%list) rest pos'.
Proof.
  induction row as [|t' row IH]; intros t values fuel pos Hfuel;
    (destruct fuel as [|fuel]; [cbn [length] in Hfuel; lia|]);
    rewrite array_items_eq.
  - cbn [map String.concat].
    destruct (scan_once_literal doc t "]" rest fuel pos (or_intror eq_refl))
      as [p ->].
    eexists. reflexivity.
  - cbn [map]. rewrite chars_concat_cons.
    match goal with
    | |- context [scan_once doc (S fuel) (_ ++ ","%char :: ?r)%list pos] =>
        destruct (scan_once_literal doc t "," r fuel pos (or_introl eq_refl))
          as [p ->]
    end.
    cbv iota.
    change (skip_whitespace (","%char :: ?r) p) with (","%char :: r, p).
    cbv iota.
    change (skip_whitespace (" "%char :: ?r) (S p)) with (skip_whitespace r (S (S p))).
    destruct (concat_starts t' (map literal row) ("]"%char :: rest)) as [tail Htail].
    rewrite Htail.
    destruct (literal_starts_value doc t' tail 0 (S (S p))) as [-> _].
    rewrite <- Htail.
    destruct (IH t' (number_of t :: values) fuel (S (S p))) as [p' Hp'];
      [cbn [length] in Hfuel; lia|].
    exists p'. cbn [rev] in Hp'. rewrite <- app_assoc in Hp'. exact Hp'.
Qed.

(** One row as [json.dumps] writes it. *)
Lemma scan_once_row (doc : list ascii) (row : list Z) (after : list ascii)
  (fuel pos : nat) :
  S (length row) < fuel ->
  exists pos',
    scan_once doc fuel (list_ascii_of_string (dumps_floats row) ++ after)%list pos
    = Value (Array (map number_of row)) after pos'.
Proof.
  intros Hfuel. destruct fuel as [|[|fuel]]; [lia|lia|].
  unfold dumps_floats. rewrite !chars_app, <- !app_assoc.
  change (list_ascii_of_string "[" ++ ?s)%list with ("["%char :: s).
  change (list_ascii_of_string "]" ++ after)%list with ("]"%char :: after).
  destruct row as [|t row]; [eexists; reflexivity|].
  destruct (concat_starts t (map literal row) ("]"%char :: after)) as [tail Htail].
  cbn [map]. rewrite Htail.
  destruct (literal_starts_value doc t tail (S fuel) pos) as [_ [_ ->]].
  rewrite <- Htail.
  destruct (array_items_literals doc after row t [] fuel (S pos)) as [p Hp];
    [cbn [length] in Hfuel; lia|].
  exists p. exact Hp.
Qed.

(** Rows start with an opening bracket. *)
Lemma rows_start (row : list Z) (l : list string) (after : list ascii) :
  exists tail,
    (list_ascii_of_string (String.concat ", " (dumps_floats row :: l)) ++ after
     = "["%char :: tail)%list.
Proof.
  destruct l as [|y l]; [|rewrite chars_concat_cons];
    unfold dumps_floats; cbn [String.concat append list_ascii_of_string app];
    eexists; reflexivity.
Qed.

(** The rows of the request, up to the closing bracket. *)
Lemma array_items_rows (doc rest : list ascii) (rows : list (list Z)) :
  forall (row : list Z) (values : list value) (fuel pos : nat),
    list_sum (map (fun row => S (length row)) (row :: rows)) < fuel ->
    exists pos',
      array_items doc (S fuel) values
        (list_ascii_of_string (String.concat ", " (map dumps_floats (row :: rows)))
         ++ "]"%char :: rest)%list pos
      = Value (Array (rev values
                      ++ map (fun row => Array (map number_of row)) (row :: rows))%list)
              rest pos'.
Proof.
  induction rows as [|row' rows IH]; intros row values fuel pos Hfuel;
    rewrite array_items_eq; cbn [map list_sum fold_right] in Hfuel.
  - cbn [map String.concat].
    destruct (scan_once_row doc row ("]"%char :: rest) fuel pos) as [p ->]; [lia|].
    eexists. reflexivity.
  - cbn [map]. rewrite chars_concat_cons.
    match goal with
    | |- context [scan_once doc fuel (_ ++ ?r)%list pos] =>
        destruct (scan_once_row doc row r fuel pos) as [p ->]; [lia|]
    end.
    cbv iota.
    change (skip_whitespace (","%char :: ?r) p) with (","%char :: r, p).
    cbv iota.
    change (skip_whitespace (" "%char :: ?r) (S p)) with (skip_whitespace r (S (S p))).
    destruct (rows_start row' (map dumps_floats rows) ("]"%char :: rest))
      as [tail Htail].
    rewrite Htail.
    change (skip_whitespace ("["%char :: tail) (S (S p)))
      with ("["%char :: tail, S (S p)).
    cbv iota. rewrite <- Htail.
    destruct fuel as [|fuel]; [lia|].
    destruct (IH row' (Array (map number_of row) :: values) fuel (S (S p)))
      as [p' Hp']; [cbn [map list_sum fold_right]; lia|].
    exists p'. cbn [rev] in Hp'. rewrite <- app_assoc in Hp'. exact Hp'.
Qed.

(** A document is at least as long as it has numbers and rows. *)
Lemma length_literals (row : list Z) :
  length row
  <= length (list_ascii_of_string (String.concat ", " (map literal row))).
Proof.
  induction row as [|t [|t' row] IH]; [apply Nat.le_0_l| |].
  - cbn [map String.concat]. rewrite chars_app, length_app. cbn. lia.
  - cbn [map] in *. rewrite concat_cons, !chars_app, !length_app.
    cbn [length list_ascii_of_string] in *. lia.
Qed.

(** The same for the rows of a request. *)
Lemma length_rows (rows : list (list Z)) :
  list_sum (map (fun row => S (length row)) rows)
  <= length (list_ascii_of_string (String.concat ", " (map dumps_floats rows))).
Proof.
  assert (Hrow : forall row,
            S (length row) <= length (list_ascii_of_string (dumps_floats row))).
  { intros row. unfold dumps_floats. rewrite !chars_app, !length_app.
    pose proof (length_literals row). cbn [list_ascii_of_string length]. lia. }
  induction rows as [|row [|row' rows] IH]; [apply Nat.le_0_l| |].
  - cbn [map String.concat list_sum fold_right]. pose proof (Hrow row). lia.
  - cbn [map] in *. rewrite concat_cons, !chars_app, !length_app.
    pose proof (Hrow row). cbn [list_sum fold_right] in *. lia.
Qed.

(** [json.loads] gives back the rows [json.dumps] wrote, each value as the
    float it is. *)
Lemma loads_dumps (rows : list (list Z)) :
  loads (dumps rows)
  = Ret (Array (map (fun row => Array (map number_of row)) rows)).
Proof.
  destruct rows as [|row rows]; [reflexivity|].
  unfold loads, dumps. cbv zeta.
  set (items := String.concat ", " (map dumps_floats (row :: rows))).
  set (doc := list_ascii_of_string ("[" ++ items ++ "]")).
  assert (Hdoc : doc = "["%char :: (list_ascii_of_string items ++ ["]"%char])%list).
  { unfold doc. rewrite !chars_app. reflexivity. }
  assert (Hlen : list_sum (map (fun row => S (length row)) (row :: rows))
                 < 2 * length doc).
  { rewrite Hdoc. cbn [length]. rewrite length_app.
    pose proof (length_rows (row :: rows)). fold items in H. lia. }
  destruct (rows_start row (map dumps_floats rows) ["]"%char]) as [tail Htail].
  change (dumps_floats row :: map dumps_floats rows)
    with (map dumps_floats (row :: rows)) in Htail. fold items in Htail.
  replace (2 * length doc + 2) with (S (S (2 * length doc))) by lia.
  destruct (array_items_rows doc [] rows row [] (2 * length doc) 1 Hlen)
    as [p Hp].
  fold items in Hp.
  rewrite Hdoc at 1. rewrite Htail.
  change (skip_whitespace ("["%char :: "["%char :: tail) 0)
    with ("["%char :: "["%char :: tail, 0).
  cbv iota.
  change (scan_once doc (S (S (2 * length doc))) ("["%char :: "["%char :: tail) 0)
    with (array_items doc (S (2 * length doc)) [] ("["%char :: tail) 1).
  rewrite <- Htail, Hp. reflexivity.
Qed.

End DecoderProperties.

Section ConversionProperties.
Import Json Numpy.

Local Abbreviation number_of := (fun t : Z => Number (Float (10 * t) (-1))).
Local Abbreviation float_of := (fun t : Z => Float (10 * t) (-1)).

(** [np.array] of a list: the array of each item, stacked. *)
Lemma array_eq (items : list value) :
  array (Array items) = and_then (mapM array items) stack.
Proof. reflexivity. Qed.

(** A map that succeeds on every element. *)
Lemma mapM_map_Ret {X Y Z : Type} (f : Y -> outcome Z) (g : X -> Y) (h : X -> Z)
  (l : list X) :
  (forall x, f (g x) = Ret (h x)) -> mapM f (map g l) = Ret (map h l).
Proof.
  intros H. induction l as [|x l IH]; [reflexivity|].
  cbn [map mapM]. fold (mapM f (map g l)). rewrite H, IH. reflexivity.
Qed.

(** Sub-arrays of one shape stack into an array with one more axis. *)
Lemma stack_same_shape (sh : list nat) (first : ndarray number)
  (others : list (ndarray number)) :
  Forall (fun a => shape a = sh) (first :: others) ->
  stack (first :: others)
  = Ret (mkArray (length (first :: others) :: sh)
           (concat (map data (first :: others)))).
Proof.
  intros Hsh. unfold stack.
  assert (Hfirst : shape first = sh) by (apply (Forall_inv Hsh)).
  replace (forallb (same_shape first) (first :: others)) with true.
  - rewrite Hfirst. reflexivity.
  - symmetry. apply forallb_forall. intros a Ha.
    unfold same_shape.
    destruct (list_eq_dec Nat.eq_dec (shape first) (shape a)) as [_|Hne];
      [reflexivity|].
    exfalso. apply Hne. rewrite Hfirst. symmetry.
    apply (proj1 (Forall_forall _ _) Hsh a Ha).
Qed.

(** [np.array] of one decoded row: a vector of its numbers. *)
Lemma array_of_row (row : list Z) :
  array (Array (map number_of row))
  = Ret (mkArray [length row] (map float_of row)).
Proof.
  rewrite array_eq.
  rewrite (mapM_map_Ret array number_of (fun t => mkArray [] [float_of t]))
    by reflexivity.
  cbn [and_then].
  destruct row as [|t row]; [reflexivity|].
  cbn [map]. rewrite (stack_same_shape []).
  - cbn [length]. rewrite length_map. f_equal. f_equal.
    change (concat (map data (map (fun t => mkArray [] [float_of t]) (t :: row)))
            = map float_of (t :: row)).
    generalize (t :: row). intros l.
    induction l as [|t' l IH]; [reflexivity|].
    cbn [map concat data app]. rewrite IH. reflexivity.
  - change (Forall (fun a : ndarray number => shape a = [])
              (map (fun t => mkArray [] [float_of t]) (t :: row))).
    apply Forall_forall. intros a Ha. apply in_map_iff in Ha.
    destruct Ha as [t' [<- _]]. reflexivity.
Qed.

(** [np.array] of decoded rows of one length: a matrix, row after row. *)
Lemma array_of_rows_of_length (k : nat) (row : list Z) (more : list (list Z)) :
  Forall (fun r => length r = k) (row :: more) ->
  array (Array (map (fun row => Array (map number_of row)) (row :: more)))
  = Ret (mkArray [length (row :: more); k]
           (map float_of (concat (row :: more)))).
Proof.
  intros Hk. rewrite array_eq.
  rewrite (mapM_map_Ret array (fun row => Array (map number_of row))
             (fun row => mkArray [length row] (map float_of row)))
    by (intros r; apply array_of_row).
  cbn [and_then map]. rewrite (stack_same_shape [k]).
  - cbn [length]. rewrite length_map. f_equal. f_equal.
    change (concat (map data (map (fun row => mkArray [length row] (map float_of row))
                                  (row :: more)))
            = map float_of (concat (row :: more))).
    generalize (row :: more). intros l.
    induction l as [|r l IH]; [reflexivity|].
    cbn [map concat data]. rewrite IH, map_app. reflexivity.
  - change (Forall (fun a : ndarray number => shape a = [k])
              (map (fun row => mkArray [length row] (map float_of row))
                   (row :: more))).
    apply Forall_forall. intros a Ha. apply in_map_iff in Ha.
    destruct Ha as [r [<- Hr]]. cbn [shape].
    rewrite (proj1 (Forall_forall _ _) Hk r Hr). reflexivity.
Qed.

End ConversionProperties.

Section DumpedRequests.
Import Reference Keras.
Local Open Scope R_scope.
Variable files : list (string * weights).

(** The array [run] converts the request to, when the request is
    [json.dumps] of rows of one length of floats with integral values. *)
Lemma request_array_dumps (k : nat) (row : list Z) (more : list (list Z)) :
  Forall (fun r => length r = k) (row :: more) ->
  @request_array (service files) (Json.dumps (row :: more))
  = Ret (mkArray [length (row :: more); k] (tokens (concat (row :: more)))).
Proof.
  intros Hk. unfold request_array.
  cbn [json_loads np_array astype_float32 service deployed].
  rewrite loads_dumps. cbn [and_then].
  rewrite (array_of_rows_of_length k row more Hk). cbn [and_then].
  unfold Numpy.astype_float32, tokens. cbn [shape data].
  rewrite map_map. reflexivity.
Qed.



(** X11.  Rows of any other length than [maxlen] are never scored: the
    graph refuses the array the request converts to, and [run] returns the
    text of what the graph raised. *)
Theorem dumped_rows_of_other_length_are_refused
  (w : @world (service files)) (m : weights) (k : nat)
  (row : list Z) (more : list (list Z)) :
  model w = Some m ->
  k <> maxlen ->
  Forall (fun r => length r = k) (row :: more) ->
  exists e,
    Onnx.run_graph m
      (mkArray [length (row :: more); k] (tokens (concat (row :: more))))
    = Raise e /\
    fst (@run (service files) (Json.dumps (row :: more)) w)
    = Ret (@PyStr (service files) (str e)).
Proof.
  intros Hm Hk Hlen.
  pose proof (request_array_dumps k row more Hlen) as Hreq.
  unfold service in *.
  rewrite (deployed_run _ _ Json.loads Numpy.array Numpy.astype_float32
             registry (loader files) w m _ _ Hm Hreq).
  unfold Onnx.run_graph. cbn [shape].
  apply Nat.eqb_neq in Hk. rewrite Hk.
  eexists. split; reflexivity.
Qed.

End DumpedRequests.

(** * The notebook's statements at work *)

Section NotebookExamples.
Import Reference Axis0 Notebook.
Local Open Scope R_scope.


(** X1, at work: three samples, the indices left in reverse order. *)
Lemma shuffle_keeps_samples_with_labels_witness :
  length [1; 0; 1]%Z = length ["pump"; "valve"; "seal"]%string /\
  Permutation (rev (arange 3)) (arange 3) /\
  exists data' labels',
    shuffled (@rev Z) ["pump"; "valve"; "seal"]%string [1; 0; 1]%Z
    = Ret (data', labels') /\
    length labels' = length data' /\
    Permutation (combine data' labels')
                (combine ["pump"; "valve"; "seal"]%string [1; 0; 1]%Z).
Proof.
  assert (Hperm : Permutation (rev (arange 3)) (arange 3))
    by (apply Permutation_sym, Permutation_rev).
  split; [reflexivity|split; [exact Hperm|]].
  apply (shuffle_keeps_samples_with_labels (@rev Z)
           ["pump"; "valve"; "seal"]%string [1; 0; 1]%Z eq_refl Hperm).
Defined.

(** X8, at work: the sample request on the healthy deployment. *)
Lemma returned_float_is_a_probability_witness :
  fst (@run healthy sample ready) = Ret (@PyFloat healthy (1 / 2)) /\
  0 <= 1 / 2 <= 1.
Proof.
  split; [exact sample_scores_one_half|].
  apply (returned_float_is_a_probability _ _ Json.loads Numpy.array
           Numpy.astype_float32 registry (loader registered)
           ready sample (1 / 2)).
  exact sample_scores_one_half.
Defined.



(** X11, at work: one vector of length 50. *)
Lemma dumped_rows_of_other_length_are_refused_witness :
  @model healthy ready = Some untrained /\
  50%nat <> Keras.maxlen /\
  Forall (fun r => length r = 50%nat) [repeat 7%Z 50] /\
  exists e,
    Onnx.run_graph untrained
      (mkArray [1%nat; 50%nat] (tokens (concat [repeat 7%Z 50]))) = Raise e /\
    fst (@run healthy short_vector ready) = Ret (@PyStr healthy (str e)).
Proof.
  assert (Hk : 50%nat <> Keras.maxlen) by discriminate.
  assert (Hlen : Forall (fun r => length r = 50%nat) [repeat 7%Z 50])
    by (constructor; [reflexivity|constructor]).
  split; [reflexivity|split; [exact Hk|split; [exact Hlen|]]].
  apply (dumped_rows_of_other_length_are_refused registered ready untrained
           50 (repeat 7%Z 50) [] eq_refl Hk Hlen).
Defined.

(** X12, at work: three samples, the indices left in reverse order. *)
Lemma shuffle_and_split_keeps_every_pair_witness :
  length [1; 0; 1]%Z = length ["pump"; "valve"; "seal"]%string /\
  Permutation (rev (arange 3)) (arange 3) /\
  exists s,
    shuffle_and_split (@rev Z) ["pump"; "valve"; "seal"]%string [1; 0; 1]%Z
    = Ret s /\
    length (x_train s) = length (y_train s) /\
    length (x_val s) = length (y_val s) /\
    length (x_test s) = length (y_test s) /\
    Permutation
      (combine (x_train s) (y_train s) ++ combine (x_val s) (y_val s)
       ++ combine (x_test s) (y_test s))
      (combine ["pump"; "valve"; "seal"]%string [1; 0; 1]%Z).
Proof.
  assert (Hperm : Permutation (rev (arange 3)) (arange 3))
    by (apply Permutation_sym, Permutation_rev).
  split; [reflexivity|split; [exact Hperm|]].
  apply (shuffle_and_split_keeps_every_pair (@rev Z)
           ["pump"; "valve"; "seal"]%string [1; 0; 1]%Z eq_refl Hperm).
Defined.

End NotebookExamples.
